(** * Composer: the event codec, the MusicRNN dataset loader and the CLI

    A shallow embedding of [composer/models/music_rnn.py] and
    [composer/cli.py].  Python integers are [Z]; exceptions are values of
    [PyError] carried by [result]; generators are the list of the tuples
    they yield together with the exception, if any, that ends them. *)

From Stdlib Require Import ZArith QArith Ascii String List Lia.
From stdpp Require Import base gmap strings list.

Open Scope Z_scope.

(** ** The Python run-time fragment the program relies on *)

Module Py.

Inductive PyError : Type :=
  | NameError (name : string)
  | UnboundLocalError (name : string)
  | TypeError (msg : string)
  | ValueError (msg : string)
  | IndexError
  | ZeroDivisionError
  | FileNotFoundError (path : string)
  | InvalidConfigError
  | EncodingError
  | DecodingError
  | InvalidParameterError (mode : string)
  | DatasetError
  | BadParameter (given : string)
  | AttributeError (attr : string)
  | SameFileError (src dst : string)
  | InvalidArgumentError (msg : string)
  | AssertionError
  | ExternalError (origin : string).

(** Dynamically typed values: what a YAML configuration holds and what is
    passed through keyword and positional arguments. *)
#[warnings="-register-all"]
Inductive PyVal : Type :=
  | VNone
  | VBool (b : bool)
  | VInt (z : Z)
  | VFloat (q : Q)
  | VStr (s : string)
  | VList (l : list PyVal).

Inductive result (A : Type) : Type :=
  | Ok (a : A)
  | Raise (e : PyError).

Arguments Ok {A} a.
Arguments Raise {A} e.

Definition bind {A B : Type} (r : result A) (k : A -> result B) : result B :=
  match r with
  | Ok a => k a
  | Raise e => Raise e
  end.

Notation "'let*' x ':=' r 'in' k" := (bind r (fun x => k))
  (at level 10, x pattern, r at level 100, k at level 200).

Definition is_ok {A : Type} (r : result A) : bool :=
  match r with Ok _ => true | Raise _ => false end.

(** A generator, run to its end: what it yielded, and the exception that
    ended it ([None] when it was exhausted normally). *)
Definition Gen (A : Type) : Type := (list A * option PyError)%type.

(** [list(g)]: the yielded items, unless the generator raised. *)
Definition list_of_gen {A : Type} (g : Gen A) : result (list A) :=
  match snd g with
  | None => Ok (fst g)
  | Some e => Raise e
  end.

(** [len(l)] *)
Definition len {A : Type} (l : list A) : Z := Z.of_nat (length l).

(** [range(n)]: empty when [n <= 0]. *)
Definition range (n : Z) : list Z := map Z.of_nat (seq 0 (Z.to_nat n)).

(** [a // b] on integers: floor division, [ZeroDivisionError] on [b = 0]. *)
Definition floordiv (a b : Z) : result Z :=
  if b =? 0 then Raise ZeroDivisionError else Ok (a / b).

(** Normalisation of one slice bound against a sequence of length [n]. *)
Definition slice_bound (n i : Z) : Z :=
  if i <? 0 then Z.max 0 (i + n) else Z.min i n.

(** [l[a:b]] *)
Definition slice {A : Type} (l : list A) (a b : Z) : list A :=
  let lo := slice_bound (len l) a in
  let hi := slice_bound (len l) b in
  take (Z.to_nat (hi - lo)) (drop (Z.to_nat lo) l).

(** [l[i]]: negative indices count from the end. *)
Definition index {A : Type} (l : list A) (i : Z) : result A :=
  let j := if i <? 0 then i + len l else i in
  if j <? 0 then Raise IndexError
  else match l !! Z.to_nat j with
       | Some a => Ok a
       | None => Raise IndexError
       end.

(** [np.asarray(l).reshape((rows, 1))] *)
Definition reshape_column (l : list Z) (rows : Z) : result (list (list Z)) :=
  if len l =? rows then Ok (map (fun v => [v]) l)
  else Raise (ValueError "cannot reshape array").

(** [np.argmax(v)]: the first index holding the maximum. *)
Fixpoint argmax_from (best_i best_v i : Z) (v : list Z) : Z :=
  match v with
  | [] => best_i
  | x :: rest =>
      if best_v <? x then argmax_from i x (i + 1) rest
      else argmax_from best_i best_v (i + 1) rest
  end.

Definition argmax (v : list Z) : result Z :=
  match v with
  | [] => Raise (ValueError "attempt to get argmax of an empty sequence")
  | x :: rest => Ok (argmax_from 0 x 1 rest)
  end.

(** *** Calls: binding arguments to a function's declared parameters *)

Record Param : Type := mkParam { pname : string; pdefault : option PyVal }.

Definition required (name : string) : Param := mkParam name None.
Definition optional (name : string) (d : PyVal) : Param := mkParam name (Some d).

Fixpoint lookup_kw (name : string) (kwargs : list (string * PyVal)) : option PyVal :=
  match kwargs with
  | [] => None
  | (k, v) :: rest => if String.eqb k name then Some v else lookup_kw name rest
  end.

(** Positional arguments fill the parameters left to right. *)
Fixpoint bind_positional (params : list Param) (args : list PyVal)
    : result (list (string * PyVal) * list Param) :=
  match args with
  | [] => Ok ([], params)
  | a :: args' =>
      match params with
      | [] => Raise (TypeError "too many positional arguments")
      | p :: params' =>
          match bind_positional params' args' with
          | Ok (bound, rest) => Ok ((pname p, a) :: bound, rest)
          | Raise e => Raise e
          end
      end
  end.

(** The remaining parameters take their keyword argument, else their
    default; a required one with neither is an error. *)
Fixpoint bind_remaining (rest : list Param) (kwargs : list (string * PyVal))
    : result (list (string * PyVal)) :=
  match rest with
  | [] => Ok []
  | p :: rest' =>
      match lookup_kw (pname p) kwargs, pdefault p with
      | Some v, _ | None, Some v =>
          match bind_remaining rest' kwargs with
          | Ok bound => Ok ((pname p, v) :: bound)
          | Raise e => Raise e
          end
      | None, None => Raise (TypeError "missing required argument")
      end
  end.

(** Every keyword must name a parameter not already bound by position. *)
Fixpoint check_keywords (bound : list (string * PyVal)) (rest : list Param)
    (kwargs : list (string * PyVal)) : result unit :=
  match kwargs with
  | [] => Ok tt
  | (k, _) :: kwargs' =>
      if existsb (fun b => String.eqb (fst b) k) bound
      then Raise (TypeError "got multiple values for argument")
      else if existsb (fun p => String.eqb (pname p) k) rest
      then check_keywords bound rest kwargs'
      else Raise (TypeError "got an unexpected keyword argument")
  end.

Definition bind_arguments (params : list Param) (args : list PyVal)
    (kwargs : list (string * PyVal)) : result (list (string * PyVal)) :=
  match bind_positional params args with
  | Raise e => Raise e
  | Ok (bound, rest) =>
      match check_keywords bound rest kwargs with
      | Raise e => Raise e
      | Ok _ =>
          match bind_remaining rest kwargs with
          | Raise e => Raise e
          | Ok bound' => Ok (bound ++ bound')
          end
      end
  end.

(** The value a bound parameter holds inside the callee. *)
Fixpoint arg (name : string) (env : list (string * PyVal)) : PyVal :=
  match env with
  | [] => VNone
  | (k, v) :: rest => if String.eqb k name then v else arg name rest
  end.

(** *** Dynamic operations on values *)

(** [np.isscalar(v)] *)
Definition isscalar (v : PyVal) : bool :=
  match v with
  | VBool _ | VInt _ | VFloat _ | VStr _ => true
  | VNone | VList _ => false
  end.

(** [bool(v)] *)
Definition truthy (v : PyVal) : bool :=
  match v with
  | VNone => false
  | VBool b => b
  | VInt z => negb (z =? 0)
  | VFloat q => negb (Qeq_bool q 0)
  | VStr s => negb (String.eqb s "")
  | VList l => match l with [] => false | _ => true end
  end.

(** [operator.index(v)]: what [range] and array shapes accept. *)
Definition as_index (v : PyVal) : result Z :=
  match v with
  | VInt z => Ok z
  | VBool b => Ok (if b then 1 else 0)
  | _ => Raise (TypeError "object cannot be interpreted as an integer")
  end.

(** [len(v)] *)
Definition py_len (v : PyVal) : result Z :=
  match v with
  | VList l => Ok (len l)
  | VStr s => Ok (Z.of_nat (String.length s))
  | _ => Raise (TypeError "object has no len()")
  end.

(** [n == v] for an integer [n] *)
Definition eq_int (n : Z) (v : PyVal) : bool :=
  match v with
  | VInt z => n =? z
  | VBool b => n =? (if b then 1 else 0)
  | VFloat q => Qeq_bool (inject_Z n) q
  | _ => false
  end.

(** [np.full(shape, fill)] for a one-dimensional shape *)
Definition np_full (shape fill : PyVal) : result (list PyVal) :=
  let* n := as_index shape in
  if n <? 0 then Raise (ValueError "negative dimensions are not allowed")
  else Ok (repeat fill (Z.to_nat n)).

(** The items of an array-like value. *)
Definition items (v : PyVal) : list PyVal :=
  match v with
  | VList l => l
  | _ => []
  end.

End Py.

Import Py.

(** ** [composer.dataset.sequence]: the event vocabulary and codec

    This module is not among the sources; the two files above import it.
    Its data model and operations follow the specification. *)

Module Sequence.

(** Modelled from the spec: the four event kinds of
    [composer.dataset.sequence], absent from the sources. *)
Inductive EventType : Type :=
  | NOTE_ON
  | NOTE_OFF
  | TIME_SHIFT
  | VELOCITY_CHANGE.

Definition EventType_eqb (a b : EventType) : bool :=
  match a, b with
  | NOTE_ON, NOTE_ON | NOTE_OFF, NOTE_OFF
  | TIME_SHIFT, TIME_SHIFT | VELOCITY_CHANGE, VELOCITY_CHANGE => true
  | _, _ => false
  end.

(** Modelled from the spec: an event of [composer.dataset.sequence],
    absent from the sources: a kind (the attribute [type] in
    [music_rnn.py]) and an optional integer value. *)
Record Event : Type := mkEvent { type : EventType; value : option Z }.

(** A Python [range(start, stop)] object. *)
Record PyRange : Type := mkRange { start : Z; stop : Z }.

Definition EventValueRanges : Type := EventType -> Z * Z.
Definition EventDimensions : Type := EventType -> Z.
Definition EventRanges : Type := EventType -> PyRange.

(** Modelled from the spec: the fixed canonical kind order in which
    [composer.dataset.sequence], absent from the sources, lays out the
    id space. *)
Definition canonical_order : list EventType :=
  [NOTE_ON; NOTE_OFF; TIME_SHIFT; VELOCITY_CHANGE].

(** Modelled from the spec: whether a kind carries a sub-parameter; the
    module [composer.dataset.sequence] is not part of the sources.  All
    four kinds of the data model carry one (pitch, pitch, duration index,
    velocity bin). *)
Definition has_sub_parameter (k : EventType) : bool := true.

(** Modelled from the spec: [compute_value_ranges] of
    [composer.dataset.sequence], absent from the sources.  Inclusive
    [(min, max)] bounds per kind; fails on a non-positive parameter or on
    [time_step_increment > max_time_steps]. *)
Definition _compute_event_value_ranges
    (time_step_increment max_time_steps velocity_bins : Z)
    : result EventValueRanges :=
  if (time_step_increment <=? 0) || (max_time_steps <=? 0)
     || (velocity_bins <=? 0) || (max_time_steps <? time_step_increment)
  then Raise InvalidConfigError
  else Ok (fun k =>
         match k with
         | NOTE_ON => (0, 127)
         | NOTE_OFF => (0, 127)
         | TIME_SHIFT => (1, max_time_steps)
         | VELOCITY_CHANGE => (0, velocity_bins - 1)
         end).

(** Modelled from the spec: [compute_dimensions], absent from the sources:
    the number of discrete values representable per kind. *)
Definition _compute_event_dimensions (value_ranges : EventValueRanges)
    : EventDimensions :=
  fun k => snd (value_ranges k) - fst (value_ranges k) + 1.

(** Lays the kinds out consecutively from [offset]. *)
Fixpoint layout (kinds : list EventType) (offset : Z) (dims : EventDimensions)
    : list (EventType * PyRange) :=
  match kinds with
  | [] => []
  | k :: rest =>
      (k, mkRange offset (offset + dims k)) :: layout rest (offset + dims k) dims
  end.

Fixpoint assoc (k : EventType) (table : list (EventType * PyRange)) : PyRange :=
  match table with
  | [] => mkRange 0 0
  | (k', r) :: rest => if EventType_eqb k k' then r else assoc k rest
  end.

(** Modelled from the spec: [compute_ranges], absent from the sources:
    each kind gets a contiguous slice in the canonical kind order. *)
Definition _compute_event_ranges (dims : EventDimensions) : EventRanges :=
  fun k => assoc k (layout canonical_order 0 dims).

(** [len(range(start, stop))] *)
Definition range_len (r : PyRange) : Z := Z.max 0 (stop r - start r).

(** Modelled from the spec: [get_one_hot_size], absent from the sources:
    the total dimension of the flat id space. *)
Definition get_one_hot_size (ranges : EventRanges) : Z :=
  fold_right (fun k acc => range_len (ranges k) + acc) 0 canonical_order.

Definition in_range (id : Z) (r : PyRange) : bool :=
  (start r <=? id) && (id <? stop r).

(** Modelled from the spec: [event_to_id], absent from the sources:
    [ranges[event.kind].start + (event.value or 0)], failing with
    [EncodingError] when the id falls outside [ranges[event.kind]]. *)
Definition event_to_id (event : Event) (ranges : EventRanges) : result Z :=
  let id := start (ranges (type event)) + default 0 (value event) in
  if in_range id (ranges (type event)) then Ok id else Raise EncodingError.

Fixpoint find_kind (id : Z) (ranges : EventRanges) (kinds : list EventType)
    : option EventType :=
  match kinds with
  | [] => None
  | k :: rest => if in_range id (ranges k) then Some k else find_kind id ranges rest
  end.

(** Modelled from the spec: [id_to_event], absent from the sources: linear
    search over the canonical order for the kind whose interval holds
    [id]; [DecodingError] outside [[0, total_dimension)]. *)
Definition id_to_event (id : Z) (ranges : EventRanges)
    (value_ranges : EventValueRanges) : result Event :=
  if (id <? 0) || (get_one_hot_size ranges <=? id) then Raise DecodingError
  else match find_kind id ranges canonical_order with
       | None => Raise DecodingError
       | Some k =>
           Ok (mkEvent k (if has_sub_parameter k
                          then Some (id - start (ranges k)) else None))
       end.

(** The entry at index [j] of the vector that is 1 at index [i] only. *)
Definition hot_bit (i j : Z) : Z := if j =? i then 1 else 0.

(** The vector of width [n] that is 1 at index [i] and 0 elsewhere. *)
Definition one_hot (n i : Z) : list Z := map (hot_bit i) (range n).

(** Modelled from the spec: [event_to_one_hot], absent from the sources:
    a vector of length [total_dimension], all zero except at
    [event_to_id]. *)
Definition event_as_one_hot_vector (event : Event) (ranges : EventRanges)
    (value_ranges : EventValueRanges) : result (list Z) :=
  let* id := event_to_id event ranges in
  if (0 <=? id) && (id <? get_one_hot_size ranges)
  then Ok (one_hot (get_one_hot_size ranges) id)
  else Raise IndexError.

(** Modelled from the spec: [one_hot_to_event], absent from the sources:
    [id = argmax(vector)], then [id_to_event]. *)
Definition one_hot_vector_as_event (vector : list Z) (ranges : EventRanges)
    (value_ranges : EventValueRanges) : result Event :=
  let* id := argmax vector in
  id_to_event id ranges value_ranges.

(** The invariant of [Event] in the specification: the value is present
    exactly for the kinds with a sub-parameter and lies inside the kind's
    bin range. *)
Definition valid_event (dims : EventDimensions) (e : Event) : Prop :=
  match value e with
  | Some v => has_sub_parameter (type e) = true /\ 0 <= v < dims (type e)
  | None => has_sub_parameter (type e) = false
  end.

(** The invariant of [EventRanges] in the specification: contiguous
    intervals in canonical order, starting at 0. *)
Definition ranges_wf (r : EventRanges) : Prop :=
  start (r NOTE_ON) = 0 /\
  stop (r NOTE_ON) = start (r NOTE_OFF) /\
  stop (r NOTE_OFF) = start (r TIME_SHIFT) /\
  stop (r TIME_SHIFT) = start (r VELOCITY_CHANGE) /\
  (forall k, start (r k) <= stop (r k)).

(** Modelled from the spec: the persisted form of one converted sample
    (written by [composer.dataset.preprocess], absent from the sources):
    the integer ids and the ranges that produced them. *)
Record EncodedFile : Type := mkFile {
  event_ids : list Z;
  event_value_ranges : EventValueRanges;
  event_ranges : EventRanges
}.

(** Modelled from the spec: [event_ids_from_file], absent from the
    sources: reads back the ids and the ranges that produced them. *)
Definition event_ids_from_file (fs : gmap string EncodedFile) (filepath : string)
    : result (list Z * EventValueRanges * EventRanges) :=
  match fs !! filepath with
  | Some f => Ok (event_ids f, event_value_ranges f, event_ranges f)
  | None => Raise (FileNotFoundError filepath)
  end.

(** Modelled from the spec: [EventSequence.from_file(path)
    .to_one_hot_encoding().one_hot_size], absent from the sources. *)
Definition from_file_one_hot_size (fs : gmap string EncodedFile)
    (filepath : string) : result Z :=
  match fs !! filepath with
  | Some f => Ok (get_one_hot_size (event_ranges f))
  | None => Raise (FileNotFoundError filepath)
  end.

End Sequence.

(** ** [composer/models/music_rnn.py] *)

Module MusicRnn.

Import Sequence.

(** [a or b] on an optional integer: [None] and [0] are falsy. *)
Definition or_int (a : option Z) (b : Z) : Z :=
  match a with
  | Some 0 => b
  | Some v => v
  | None => b
  end.

Definition _encode_event_as_int (event : Event) (event_ranges : EventRanges)
    : result Z :=
  Ok (start (event_ranges (type event)) + or_int (value event) 0).

(** One training tuple: the input window [x] (shape [(window_size, 1)]) and
    the label [y]. *)
Definition Sample : Type := (list (list Z) * list Z)%type.

(** The body of the [for i in range(sequence_count)] loop. *)
Definition sequence_at (event_ids : list Z) (event_value_ranges : EventValueRanges)
    (event_ranges : EventRanges) (window_size extract_events_count i : Z)
    : result Sample :=
  let start_ := i * extract_events_count in
  let end_ := extract_events_count * (i + 1) in
  let input_events := slice event_ids start_ (end_ - 1) in
  let* x := reshape_column input_events window_size in
  let* last := index event_ids (end_ - 1) in
  let* event := id_to_event last event_ranges event_value_ranges in
  let* y := event_as_one_hot_vector event event_ranges event_value_ranges in
  Ok (x, y).

(** A [for] loop whose body yields once per iteration. *)
Fixpoint yield_each {A : Type} (body : Z -> result A) (idxs : list Z) : Gen A :=
  match idxs with
  | [] => ([], None)
  | i :: rest =>
      match body i with
      | Raise e => ([], Some e)
      | Ok a => let g := yield_each body rest in (a :: fst g, snd g)
      end
  end.

Definition _get_sequences_from_file (fs : gmap string EncodedFile)
    (filepath : string) (window_size : Z) : Gen Sample :=
  match event_ids_from_file fs filepath with
  | Raise e => ([], Some e)
  | Ok (event_ids, event_value_ranges, event_ranges) =>
      let extract_events_count := window_size + 1 in
      match floordiv (len event_ids) extract_events_count with
      | Raise e => ([], Some e)
      | Ok sequence_count =>
          yield_each
            (sequence_at event_ids event_value_ranges event_ranges
               window_size extract_events_count)
            (range sequence_count)
      end
  end.

(** [for filepath in filepaths: for x, y in ...: yield x, y] *)
Fixpoint _generator (fs : gmap string EncodedFile) (filepaths : list string)
    (window_size : Z) : Gen Sample :=
  match filepaths with
  | [] => ([], None)
  | filepath :: rest =>
      let g := _get_sequences_from_file fs filepath window_size in
      match snd g with
      | Some e => (fst g, Some e)
      | None =>
          let g' := _generator fs rest window_size in
          (fst g ++ fst g', snd g')
      end
  end.

(** A [tf.data.Dataset] built by [from_generator]: the generator it will
    run, the declared element shapes and the prefetch buffer. *)
Record Dataset : Type := mkDataset {
  elements : Gen Sample;
  output_shapes : (Z * Z) * Z;
  prefetch_buffer : option Z
}.

(** The largest value of a 64-bit dimension or buffer size. *)
Definition int64_max : Z := 2 ^ 63 - 1.

(** [tf.data.Dataset.from_generator]: the generator is not run; a
    declared shape with a negative dimension, or with one that does not
    fit the 64 bits of a shape dimension, is refused. *)
Definition from_generator (g : Gen Sample) (shapes : (Z * Z) * Z)
    : result Dataset :=
  if (fst (fst shapes) <? 0) || (snd (fst shapes) <? 0) || (snd shapes <? 0)
  then Raise (ValueError "Dimension must be >= 0")
  else if (int64_max <? fst (fst shapes)) || (int64_max <? snd (fst shapes))
          || (int64_max <? snd shapes)
  then Raise (ValueError "Value out of range")
  else Ok (mkDataset g shapes None).

(** [dataset.prefetch(buffer_size)]: the buffer size is a 64-bit integer
    that is non-negative or -1 (autotune); any other is refused. *)
Definition prefetch (d : Dataset) (buffer_size : Z) : result Dataset :=
  if (buffer_size <? 0) && negb (buffer_size =? -1)
  then Raise (InvalidArgumentError "buffer_size must be >= 0 or -1")
  else if int64_max <? buffer_size
  then Raise (ValueError "Value out of range")
  else Ok (mkDataset (elements d) (output_shapes d) (Some buffer_size)).

(** [[_loader_func(filepath) for filepath in filepaths]] *)
Fixpoint load_each (fs : gmap string EncodedFile) (filepaths : list string)
    (window_size : Z) : result (list (list Sample)) :=
  match filepaths with
  | [] => Ok []
  | filepath :: rest =>
      let* one := list_of_gen (_get_sequences_from_file fs filepath window_size) in
      let* others := load_each fs rest window_size in
      Ok (one :: others)
  end.

(** The local variables [dataset] and [data] at the [return] statement. *)
Definition create_music_rnn_dataset_locals (fs : gmap string EncodedFile)
    (filepaths : list string) (batch_size window_size : Z) (use_generator : bool)
    (show_loading_progress_bar : bool) (prefetch_buffer_size : Z)
    : result (option Dataset * option (list (list Sample))) :=
  let input_event_dimensions := 1 in
  let* first := index filepaths 0 in
  let* output_event_dimensions := from_file_one_hot_size fs first in
  let* locals :=
    (if use_generator
     then let* dataset :=
            from_generator (_generator fs filepaths window_size)
              ((window_size, input_event_dimensions), output_event_dimensions) in
          Ok (Some dataset, None)
     else let* data := load_each fs filepaths window_size in
          Ok (None, Some data)) in
  if use_generator
  then match fst locals with
       | Some dataset =>
           let* dataset := prefetch dataset prefetch_buffer_size in
           Ok (Some dataset, snd locals)
       | None => Raise (UnboundLocalError "dataset")
       end
  else Ok locals.

(** The function ends in [return None]: the return value is Python's
    [None] ([None] below), never the local [dataset]. *)
Definition create_music_rnn_dataset (fs : gmap string EncodedFile)
    (filepaths : list string) (batch_size window_size : Z) (use_generator : bool)
    (show_loading_progress_bar : bool) (prefetch_buffer_size : Z)
    : result (option (Dataset * Z)) :=
  let* _ := create_music_rnn_dataset_locals fs filepaths batch_size window_size
              use_generator show_loading_progress_bar prefetch_buffer_size in
  Ok None.

(** *** The [MusicRNN] model class *)

(** Keras layers, as the constructor arguments they are created with. *)
Record LSTM : Type := mkLSTM {
  lstm_units : PyVal;
  input_shape : PyVal * PyVal;
  return_sequences : bool
}.

Record Dropout : Type := mkDropout { rate : PyVal }.

Record Dense : Type := mkDense { units : PyVal; activation : string }.

(** A layer about to be constructed. *)
Inductive Layer : Type :=
  | LstmLayer (l : LSTM)
  | DropoutLayer (d : Dropout)
  | BatchNormalizationLayer
  | DenseLayer (d : Dense).

(** What the installed Keras does when a layer is constructed: the
    exception the constructor raises for these arguments, if any. Keras is
    not part of the sources, and which arguments it refuses differs
    between its versions. *)
Definition Keras : Type := Layer -> option PyError.

(** Constructing one layer. *)
Definition construct {A : Type} (keras : Keras) (layer : Layer) (a : A)
    : result A :=
  match keras layer with
  | Some e => Raise e
  | None => Ok a
  end.

Record MusicRNN : Type := mkMusicRNN {
  lstm_layers_count : PyVal;
  lstm_layers : list LSTM;
  dropout_layers : list Dropout;
  normalization_layers : option nat;
  dense_layer : Dense;
  output_layer : Dense
}.

(** The declared parameters of [MusicRNN.__init__] (after [self]). *)
Definition MusicRNN_init_params : list Param :=
  [ required "input_event_dimensions";
    required "output_event_dimensions";
    required "window_size";
    required "lstm_layers_count";
    required "lstm_layer_sizes";
    required "lstm_dropout_probability";
    optional "dense_layer_size" (VInt 256);
    optional "use_batch_normalization" (VBool true) ].

(** A per-layer setting: kept when array-like of the right length, else
    broadcast with [np.full]. *)
Definition per_layer (setting count : PyVal) : result (list PyVal) :=
  if negb (isscalar setting)
  then let* n := py_len setting in
       if eq_int n count then Ok (items setting) else Raise AssertionError
  else np_full count setting.

(** The body of [for i in range(lstm_layers_count)]. *)
Fixpoint build_layers (keras : Keras) (batch_normalization : bool)
    (sizes dropouts : list PyVal) (count : Z)
    (window_size input_event_dimensions : PyVal) (idxs : list Z)
    : result (list LSTM * list Dropout) :=
  match idxs with
  | [] => Ok ([], [])
  | i :: rest =>
      let* size := index sizes i in
      let* lstm_layer :=
        construct keras
          (LstmLayer (mkLSTM size (window_size, input_event_dimensions)
                        (i <? count - 1)))
          (mkLSTM size (window_size, input_event_dimensions) (i <? count - 1)) in
      let* p := index dropouts i in
      let* dropout_layer :=
        construct keras (DropoutLayer (mkDropout p)) (mkDropout p) in
      let* _ := (if batch_normalization
                 then construct keras BatchNormalizationLayer tt
                 else Ok tt) in
      let* more := build_layers keras batch_normalization sizes dropouts count
                     window_size input_event_dimensions rest in
      Ok (lstm_layer :: fst more, dropout_layer :: snd more)
  end.

Definition MusicRNN_init_body (keras : Keras) (input_event_dimensions
    output_event_dimensions window_size lstm_layers_count lstm_layer_sizes
    lstm_dropout_probability dense_layer_size use_batch_normalization : PyVal)
    : result MusicRNN :=
  let* lstm_layer_sizes := per_layer lstm_layer_sizes lstm_layers_count in
  let* lstm_dropout_probability :=
    per_layer lstm_dropout_probability lstm_layers_count in
  let* count := as_index lstm_layers_count in
  let* built := build_layers keras (truthy use_batch_normalization)
                  lstm_layer_sizes lstm_dropout_probability count
                  window_size input_event_dimensions (range count) in
  let* dense_layer :=
    construct keras (DenseLayer (mkDense dense_layer_size "relu"))
      (mkDense dense_layer_size "relu") in
  let* output_layer :=
    construct keras (DenseLayer (mkDense output_event_dimensions "softmax"))
      (mkDense output_event_dimensions "softmax") in
  Ok (mkMusicRNN lstm_layers_count (fst built) (snd built)
        (if truthy use_batch_normalization
         then Some (length (fst built)) else None)
        dense_layer output_layer).

(** Instantiating [MusicRNN]: bind the call's arguments to the declared
    parameters, then run the body of [__init__]. *)
Definition MusicRNN_new (keras : Keras) (args : list PyVal)
    (kwargs : list (string * PyVal)) : result MusicRNN :=
  let* env := bind_arguments MusicRNN_init_params args kwargs in
  MusicRNN_init_body keras
    (arg "input_event_dimensions" env) (arg "output_event_dimensions" env)
    (arg "window_size" env) (arg "lstm_layers_count" env)
    (arg "lstm_layer_sizes" env) (arg "lstm_dropout_probability" env)
    (arg "dense_layer_size" env) (arg "use_batch_normalization" env).

(** The declared parameters of [create_music_rnn_dataset]. *)
Definition create_music_rnn_dataset_params : list Param :=
  [ required "filepaths";
    required "batch_size";
    required "window_size";
    optional "use_generator" (VBool false);
    optional "show_loading_progress_bar" (VBool true);
    optional "prefetch_buffer_size" (VInt 2) ].

Definition str_of (v : PyVal) : string :=
  match v with VStr s => s | _ => "" end.

Definition int_of (v : PyVal) : Z :=
  match v with VInt z => z | VBool true => 1 | _ => 0 end.

(** Modelled from the spec: [composer.models.load_dataset]; the package's
    [__init__.py], which binds that name, is absent from the sources. The
    model-layer loader is taken to be [create_music_rnn_dataset], the only
    dataset loader among the sources, called with the positional and
    keyword arguments of the call site; what the absent module really
    binds to the name is not known. *)
Definition load_dataset (fs : gmap string EncodedFile) (args : list PyVal)
    (kwargs : list (string * PyVal)) : result (option (Dataset * Z)) :=
  let* env := bind_arguments create_music_rnn_dataset_params args kwargs in
  create_music_rnn_dataset fs
    (map str_of (items (arg "filepaths" env)))
    (int_of (arg "batch_size" env)) (int_of (arg "window_size" env))
    (truthy (arg "use_generator" env))
    (truthy (arg "show_loading_progress_bar" env))
    (int_of (arg "prefetch_buffer_size" env)).

End MusicRnn.

(** ** [composer.config]: the configuration instance *)

Module Config.

Record DatasetSection : Type := mkDatasetSection {
  time_step_increment : Z;
  max_time_steps : Z;
  velocity_bins : Z
}.

Record ModelSection : Type := mkModelSection {
  window_size : PyVal;
  lstm_layers_count : PyVal;
  lstm_layer_sizes : PyVal;
  lstm_dropout_probability : PyVal;
  use_batch_normalization : PyVal
}.

Record TrainSection : Type := mkTrainSection {
  batch_size : PyVal;
  learning_rate : Q
}.

Record ConfigInstance : Type := mkConfig {
  filepath : string;
  dataset : DatasetSection;
  model : ModelSection;
  train : TrainSection
}.

End Config.

(** ** [composer/cli.py] *)

Module Cli.

Import Sequence.

(** What [json.dump] can write. *)
Inductive JVal : Type :=
  | JStr (s : string)
  | JBool (b : bool)
  | JInt (z : Z)
  | JNum (q : Q).

Inductive Content : Type :=
  | Json (entries : list (string * JVal))
  | Text (body : string).

Inductive Action : Type :=
  | WroteFile (path : string)
  | CopiedFile (src dst : string)
  | CompiledModel
  | LoadedWeights (restoredir : string)
  | BuiltModel
  | EvaluatedModel
  | Logged (message : string).

(** The state of the [logging] module. *)
Record Logging : Type := mkLogging {
  initialised : bool;
  root_level : option Z
}.

(** The value of an attribute of the [logging] module, as
    [Logger.setLevel] tells values apart: an integer, a string, or
    anything else. *)
Inductive LoggingAttr : Type :=
  | AttrInt (level : Z)
  | AttrStr (s : string)
  | AttrOther.

(** The Python run-time, the libraries and the operating system under the
    program, none of which is part of the sources: how [str.upper] and
    [pathlib] render strings, which attributes and level names the
    [logging] module has, which exception [open(path, 'w+')] and [shutil.copy2(src, dst)] raise
    in the present state of the file system, if any, and which layer
    arguments Keras refuses. *)
Record Runtime : Type := mkRuntime {
  str_upper : string -> string;
  logging_getattr : string -> option LoggingAttr;
  name_to_level : string -> option Z;
  path_join : string -> string -> string;
  path_absolute : string -> string -> string;
  open_error : string -> option PyError;
  copy_error : string -> string -> option PyError;
  keras : MusicRnn.Keras
}.

(** Everything outside the program that the commands read or change. *)
Record World : Type := mkWorld {
  time_ms : Z;
  local_now : string;
  utc_now : string;
  cwd : string;
  package_dir : string;
  np_random_state : Z;
  logging : Logging;
  files : gmap string Content;
  encoded : gmap string EncodedFile;
  listings : gmap string (list string);
  trace : list Action;
  runtime : Runtime
}.

Definition set_logging (l : Logging) (w : World) : World :=
  mkWorld (time_ms w) (local_now w) (utc_now w) (cwd w) (package_dir w)
    (np_random_state w) l (files w) (encoded w) (listings w) (trace w)
    (runtime w).

Definition set_files (f : gmap string Content) (w : World) : World :=
  mkWorld (time_ms w) (local_now w) (utc_now w) (cwd w) (package_dir w)
    (np_random_state w) (logging w) f (encoded w) (listings w) (trace w)
    (runtime w).

Definition log_action (a : Action) (w : World) : World :=
  mkWorld (time_ms w) (local_now w) (utc_now w) (cwd w) (package_dir w)
    (np_random_state w) (logging w) (files w) (encoded w) (listings w)
    (trace w ++ [a]) (runtime w).

(** Commands: state passing, with the exception that ended them. *)
Definition M (A : Type) : Type := World -> World * result A.

Definition ret {A : Type} (a : A) : M A := fun w => (w, Ok a).

Definition throw {A : Type} (e : PyError) : M A := fun w => (w, Raise e).

Definition lift {A : Type} (r : result A) : M A := fun w => (w, r).

Definition mbind {A B : Type} (m : M A) (k : A -> M B) : M B :=
  fun w => match m w with
           | (w', Ok a) => k a w'
           | (w', Raise e) => (w', Raise e)
           end.

Notation "'let!' x ':=' m 'in' k" := (mbind m (fun x => k))
  (at level 10, x pattern, m at level 100, k at level 200).

Definition act (a : Action) : M unit := fun w => (log_action a w, Ok tt).

(** *** Paths *)

(** [Path(a) / b], as [pathlib] renders it. *)
Definition joinpath (w : World) (a b : string) : string :=
  path_join (runtime w) a b.

(** [str(Path(p).absolute())], as [pathlib] renders it against the
    current directory. *)
Definition absolute (w : World) (p : string) : string :=
  path_absolute (runtime w) (cwd w) p.

(** *** Names *)

(** The names bound at module level in [cli.py]. *)
Definition module_globals : list string :=
  [ "re"; "tqdm"; "time"; "json"; "click"; "logging"; "datetime"; "np";
    "composer"; "logging_utils"; "copy2"; "Path"; "Enum"; "unique";
    "EnumType"; "DatasetError"; "InvalidParameterError"; "NoteSequence";
    "EventSequence"; "OneHotEncodedEventSequence"; "_set_verbosity_level";
    "cli"; "preprocess"; "get_event_sequence_ranges";
    "get_model_event_dimensions"; "decode_to_event"; "ModelType";
    "get_default_config"; "compile_model"; "summary"; "visualize_training";
    "train"; "evaluate"; "generate" ].

(** The built-in names the module uses. *)
Definition builtins : list string :=
  [ "getattr"; "int"; "str"; "open"; "list"; "len"; "range"; "max";
    "print"; "enumerate"; "exit"; "NotImplementedError" ].

Definition mem (name : string) (names : list string) : bool :=
  existsb (String.eqb name) names.

(** Reading a name inside a function whose local names are [locals], of
    which [bound] have been assigned so far. *)
Definition load_name (locals bound : list string) (name : string) : result unit :=
  if mem name locals
  then if mem name bound then Ok tt else Raise (UnboundLocalError name)
  else if mem name module_globals || mem name builtins then Ok tt
  else Raise (NameError name).

Inductive ModelType : Type := MUSIC_RNN.

Definition get_default_config (w : World) (model_type : ModelType) : string :=
  match model_type with
  | MUSIC_RNN => joinpath w (package_dir w) "music_rnn_config.yml"
  end.

(** [config_filepath or default]: the right operand is evaluated only
    when the left one is falsy ([None] or the empty string). *)
Definition or_default (config_filepath : option string) (default : result string)
    : result string :=
  match config_filepath with
  | Some p => if String.eqb p "" then default else Ok p
  | None => default
  end.

(** [get_default_config(model_type)] evaluated inside a function with the
    given local names; [model_type] is the value that name holds there,
    when it holds one. *)
Definition default_config_call (w : World) (locals bound : list string)
    (model_type : option ModelType) : result string :=
  let* _ := load_name locals bound "get_default_config" in
  let* _ := load_name locals bound "model_type" in
  match model_type with
  | Some mt => Ok (get_default_config w mt)
  | None => Raise (UnboundLocalError "model_type")
  end.

(** *** The command group *)

(** [logger.setLevel(x)]: an integer is taken as the level, a string
    must be a level name known to [logging], anything else is a type
    error. *)
Definition setLevel (x : LoggingAttr) : M unit := fun w =>
  match x with
  | AttrInt level =>
      (set_logging (mkLogging (initialised (logging w)) (Some level)) w, Ok tt)
  | AttrStr name =>
      match name_to_level (runtime w) name with
      | Some level =>
          (set_logging (mkLogging (initialised (logging w)) (Some level)) w,
           Ok tt)
      | None => (w, Raise (ValueError "Unknown level"))
      end
  | AttrOther =>
      (w, Raise (TypeError "Level not an integer or a valid string"))
  end.

Definition _set_verbosity_level (value : string) : M unit := fun w =>
  match logging_getattr (runtime w) (str_upper (runtime w) value) with
  | None => (w, Raise (BadParameter value))
  | Some x => setLevel x w
  end.

(** Modelled from the spec: [logging_utils.init()], absent from the
    sources; logging setup is an external collaborator there, and touches
    the logging state only. *)
Definition logging_utils_init : M unit := fun w =>
  (set_logging (mkLogging true (root_level (logging w))) w, Ok tt).

(** The value of the local [seed] once the [if seed is None] block is
    passed. *)
Definition cli_seed (w : World) (seed : option Z) : Z :=
  match seed with
  | Some s => s
  | None =>
      let t := time_ms w in
      Z.shiftr (Z.land t 0xff000000) 24 + Z.shiftr (Z.land t 0x00ff0000) 8
      + Z.shiftl (Z.land t 0x0000ff00) 8 + Z.shiftl (Z.land t 0x000000ff) 24
  end.

Definition cli (verbosity : string) (seed : option Z) : M unit := fun w =>
  let seed := cli_seed w seed in
  (let! _ := logging_utils_init in
   _set_verbosity_level verbosity) w.

(** *** Vocabulary helpers *)

Definition get_event_sequence_ranges (config : Config.ConfigInstance)
    : result (EventValueRanges * EventDimensions * EventRanges) :=
  let* event_value_ranges :=
    _compute_event_value_ranges
      (Config.time_step_increment (Config.dataset config))
      (Config.max_time_steps (Config.dataset config))
      (Config.velocity_bins (Config.dataset config)) in
  let event_dimensions := _compute_event_dimensions event_value_ranges in
  let event_ranges := _compute_event_ranges event_dimensions in
  Ok (event_value_ranges, event_dimensions, event_ranges).

Definition get_model_event_dimensions (config : Config.ConfigInstance) : result Z :=
  let* r := get_event_sequence_ranges config in
  Ok (get_one_hot_size (snd r)).

(** *** [ModelType] *)

(** The positional arguments of the [models.MusicRNN(...)] call. *)
Definition _create_music_rnn_args (config : Config.ConfigInstance) (dimensions : Z)
    : list PyVal :=
  [ VInt dimensions;
    Config.window_size (Config.model config);
    Config.lstm_layers_count (Config.model config);
    Config.lstm_layer_sizes (Config.model config);
    Config.lstm_dropout_probability (Config.model config);
    Config.use_batch_normalization (Config.model config) ].

Definition _create_music_rnn (w : World) (config : Config.ConfigInstance)
    (dimensions : Z) : result MusicRnn.MusicRNN :=
  MusicRnn.MusicRNN_new (keras (runtime w))
    (_create_music_rnn_args config dimensions) [].

Definition create_model (w : World) (self : ModelType)
    (config : Config.ConfigInstance) : result (MusicRnn.MusicRNN * Z) :=
  let* dimensions := get_model_event_dimensions config in
  let* model := match self with
                | MUSIC_RNN => _create_music_rnn w config dimensions
                end in
  Ok (model, dimensions).

(** [a, b = v]: unpacking [None] is a [TypeError]. *)
Definition unpack_pair {A B : Type} (v : option (A * B)) : result (A * B) :=
  match v with
  | Some p => Ok p
  | None => Raise (TypeError "cannot unpack non-iterable NoneType object")
  end.

Definition _load_music_rnn_dataset (w : World) (config : Config.ConfigInstance)
    (use_generator : bool) (max_files : option Z) (show_progress_bar : bool)
    (files : list string) : result MusicRnn.Dataset :=
  let files := match max_files with
               | Some n => slice files 0 n
               | None => files
               end in
  let* r := MusicRnn.load_dataset (encoded w)
              [ VList (map VStr files);
                Config.batch_size (Config.train config);
                Config.window_size (Config.model config) ]
              [ ("input_event_encoding", VStr "ONE_HOT");
                ("show_loading_progress_bar", VBool show_progress_bar);
                ("use_generator", VBool use_generator) ] in
  let* p := unpack_pair r in
  Ok (fst p).

Definition get_dataset (w : World) (self : ModelType) (dataset_path mode : string)
    (config : Config.ConfigInstance) (use_generator : bool)
    (max_files : option Z) (show_progress_bar : bool) : result MusicRnn.Dataset :=
  if negb (mem mode ["train"; "test"])
  then Raise (InvalidParameterError mode)
  else
    let dataset_path := joinpath w dataset_path mode in
    match listings w !! dataset_path with
    | None => Raise (AttributeError "fromat")
    | Some files =>
        match self with
        | MUSIC_RNN =>
            _load_music_rnn_dataset w config use_generator max_files
              show_progress_bar files
        end
    end.

Definition get_train_dataset (w : World) (self : ModelType) (dataset_path : string)
    (config : Config.ConfigInstance) (use_generator : bool)
    (max_files : option Z) (show_progress_bar : bool) : result MusicRnn.Dataset :=
  get_dataset w self dataset_path "train" config use_generator max_files
    show_progress_bar.

Definition get_test_dataset (w : World) (self : ModelType) (dataset_path : string)
    (config : Config.ConfigInstance) (use_generator : bool)
    (max_files : option Z) (show_progress_bar : bool) : result MusicRnn.Dataset :=
  get_dataset w self dataset_path "test" config use_generator max_files
    show_progress_bar.

(** *** File output *)

(** [with open(path, 'w+') as f: json.dump(entries, f)]: opening may
    fail (no such directory, no permission, ...); the entries written are
    strings, booleans and numbers, which [json.dump] accepts. *)
Definition dump_json (path : string) (entries : list (string * JVal)) : M unit :=
  fun w =>
    match open_error (runtime w) path with
    | Some e => (w, Raise e)
    | None => (log_action (WroteFile path)
                 (set_files (<[path := Json entries]> (files w)) w), Ok tt)
    end.

(** [copy2(src, dst)]: an existing file copied onto itself is a
    [SameFileError], a missing source a [FileNotFoundError]; the copy may
    also fail for a reason of the file system (the same file under two
    names, no permission, ...). *)
Definition copy2 (src dst : string) : M unit := fun w =>
  match files w !! src with
  | None => (w, Raise (FileNotFoundError src))
  | Some c =>
      if String.eqb src dst then (w, Raise (SameFileError src dst))
      else match copy_error (runtime w) src dst with
           | Some e => (w, Raise e)
           | None => (log_action (CopiedFile src dst)
                        (set_files (<[dst := c]> (files w)) w), Ok tt)
           end
  end.

(** The [metadata] dictionary of [preprocess], in insertion order. *)
Definition metadata (w : World) (dataset_path output_directory : string)
    (transform : bool) (transform_percent : Q) (split : bool) (test_percent : Q)
    : list (string * JVal) :=
  [ ("local_time", JStr (local_now w));
    ("utc_time", JStr (utc_now w));
    ("raw_dataset_path", JStr (absolute w dataset_path));
    ("output_directory", JStr (absolute w output_directory));
    ("transform", JBool transform);
    ("transform_percent", JNum transform_percent);
    ("split", JBool split);
    ("test_percent", JNum test_percent);
    ("seed", JInt (np_random_state w)) ].

Definition preprocess_params : list string :=
  [ "dataset_path"; "output_directory"; "num_workers"; "config_filepath";
    "transform"; "transform_percent"; "split"; "test_percent";
    "output_metadata" ].

Definition preprocess_locals : list string :=
  (preprocess_params ++ ["config"; "metadata_file"; "metadata"]).

Definition evaluate_params : list string :=
  [ "model_type"; "dataset_path"; "restoredir"; "config_filepath";
    "use_generator"; "max_files" ].

Definition evaluate_locals : list string :=
  (evaluate_params
   ++ ["tf"; "config"; "model"; "dimensions"; "test_dataset"; "loss";
       "accuracy"]).

(** Reading a local variable: the name must resolve, and hold a value. *)
Definition load_local {A : Type} (locals bound : list string) (name : string)
    (slot : option A) : result A :=
  let* _ := load_name locals bound name in
  match slot with
  | Some v => Ok v
  | None => Raise (UnboundLocalError name)
  end.

(** [create_model(self, config, **kwargs)] takes one positional argument
    after [self]. *)
Definition create_model_params : list Param := [required "config"].

Section Commands.

(** The collaborators that are not part of these two files:
    [composer.config.get], and [split_dataset] and [convert_all] of
    [composer.dataset.preprocess]. *)
Variable config_get : string -> M Config.ConfigInstance.
Variable split_dataset :
  Config.ConfigInstance -> string -> string -> Q -> bool -> Q -> Z -> M unit.
Variable convert_all : Config.ConfigInstance -> string -> string -> Z -> M unit.

(** Everything in [preprocess] after the configuration is loaded. *)
Definition preprocess_steps (config : Config.ConfigInstance)
    (dataset_path output_directory : string) (num_workers : Z)
    (transform : bool) (transform_percent : Q) (split : bool) (test_percent : Q)
    (output_metadata : bool) : M unit :=
  let! _ := (if split
             then split_dataset config dataset_path output_directory
                    test_percent transform transform_percent num_workers
             else convert_all config dataset_path output_directory num_workers) in
  if negb output_metadata then ret tt
  else
    let! _ := (fun w =>
                 dump_json (joinpath w output_directory "metadata.json")
                   (metadata w dataset_path output_directory transform
                      transform_percent split test_percent) w) in
    (fun w =>
       copy2 (Config.filepath config)
         (joinpath w output_directory "config.yml") w).

Definition preprocess (dataset_path output_directory : string) (num_workers : Z)
    (config_filepath : option string) (transform : bool) (transform_percent : Q)
    (split : bool) (test_percent : Q) (output_metadata : bool) : M unit :=
  let! path := (fun w =>
                  lift (or_default config_filepath
                          (default_config_call w preprocess_locals
                             preprocess_params None)) w) in
  let! config := config_get path in
  preprocess_steps config dataset_path output_directory num_workers transform
    transform_percent split test_percent output_metadata.

Definition evaluate (model_type : ModelType)
    (dataset_path restoredir : string) (config_filepath : option string)
    (use_generator : bool) (max_files : option Z) : M unit :=
  let bound := (evaluate_params ++ ["tf"]) in
  let! path := (fun w =>
                  lift (or_default config_filepath
                          (default_config_call w evaluate_locals bound
                             (Some model_type))) w) in
  let! config := config_get path in
  let bound := (bound ++ ["config"]) in
  let! self := lift (load_local evaluate_locals bound "model_type"
                       (Some model_type)) in
  let! config := lift (load_local evaluate_locals bound "config" (Some config)) in
  let! dimensions := lift (load_local evaluate_locals bound "dimensions"
                             (@None Z)) in
  (* two positional arguments for the one parameter [config] *)
  let! _ := lift (bind_arguments create_model_params
                    [VStr (Config.filepath config); VInt dimensions] []) in
  let! created := (fun w => lift (create_model w self config) w) in
  let model := fst created in
  let dimensions := snd created in
  let! _ := act CompiledModel in
  let! _ := act (LoadedWeights restoredir) in
  let! _ := act BuiltModel in
  let! test_dataset :=
    (fun w => lift (get_test_dataset w model_type dataset_path config
                      use_generator max_files true) w) in
  let! _ := act EvaluatedModel in
  act (Logged "- Finished evaluating model.").

End Commands.

End Cli.

(** * Specification-side definitions and example inputs *)

Import Sequence.

(** A configuration used in the examples: 10 ms steps, 1000 steps at
    most, 32 velocity bins. *)
Definition example_value_ranges : EventValueRanges :=
  fun k =>
    match k with
    | NOTE_ON => (0, 127)
    | NOTE_OFF => (0, 127)
    | TIME_SHIFT => (1, 1000)
    | VELOCITY_CHANGE => (0, 32 - 1)
    end.

Definition example_ranges : EventRanges :=
  _compute_event_ranges (_compute_event_dimensions example_value_ranges).

(** The [i]-th non-overlapping chunk of [W + 1] ids. *)
Definition chunk (ids : list Z) (W : Z) (i : nat) : list Z :=
  take (Z.to_nat (W + 1)) (drop (i * Z.to_nat (W + 1)) ids).

(** The tuple the specification assigns to the [i]-th chunk: the first [W]
    ids, one per row, and the one-hot vector of the [(W+1)]-th id. *)
Definition window_spec (ids : list Z) (total W : Z) (i : nat) : MusicRnn.Sample :=
  (map (fun v => [v]) (take (Z.to_nat W) (chunk ids W i)),
   one_hot total (nth (Z.to_nat W) (chunk ids W i) 0)).

Definition windows_spec (ids : list Z) (total W : Z) : list MusicRnn.Sample :=
  map (window_spec ids total W) (seq 0 (Z.to_nat (len ids / (W + 1)))).

Definition is_one_hot (n : Z) (v : list Z) : Prop :=
  exists i, 0 <= i < n /\ v = one_hot n i.

Definition example_file : EncodedFile :=
  mkFile [3; 130; 300; 1200; 5; 6; 7] example_value_ranges example_ranges.

Definition example_fs : gmap string EncodedFile := {[ "a.bin" := example_file ]}.

Definition example_config : Config.ConfigInstance :=
  Config.mkConfig "cfg.yml"
    (Config.mkDatasetSection 10 1000 32)
    (Config.mkModelSection (VInt 64) (VInt 3) (VInt 512) (VFloat (1 # 2))
       (VBool true))
    (Config.mkTrainSection (VInt 32) (1 # 1000)).

(** Upper-casing of the ASCII letters: what [str.upper] does on ASCII
    text. *)
Definition ascii_upper_char (c : Ascii.ascii) : Ascii.ascii :=
  let n := Ascii.nat_of_ascii c in
  if (Nat.leb 97 n && Nat.leb n 122)%bool then Ascii.ascii_of_nat (n - 32) else c.

Fixpoint ascii_upper (s : string) : string :=
  match s with
  | EmptyString => EmptyString
  | String c rest => String (ascii_upper_char c) (ascii_upper rest)
  end.

(** The level names of a [logging] module to which none was added. *)
Definition example_name_to_level (name : string) : option Z :=
  if String.eqb name "CRITICAL" then Some 50
  else if String.eqb name "FATAL" then Some 50
  else if String.eqb name "ERROR" then Some 40
  else if String.eqb name "WARNING" then Some 30
  else if String.eqb name "WARN" then Some 30
  else if String.eqb name "INFO" then Some 20
  else if String.eqb name "DEBUG" then Some 10
  else if String.eqb name "NOTSET" then Some 0
  else None.

(** The attributes of [logging] an example run-time has: the level
    constants, and the format string [BASIC_FORMAT], which is no level. *)
Definition example_logging_getattr (name : string) : option Cli.LoggingAttr :=
  match example_name_to_level name with
  | Some level => Some (Cli.AttrInt level)
  | None =>
      if String.eqb name "BASIC_FORMAT"
      then Some (Cli.AttrStr "%(levelname)s:%(name)s:%(message)s")
      else None
  end.

(** How [pathlib] renders the plain relative and absolute paths of the
    examples (no repeated or trailing separators, no dot components). *)
Definition example_path_join (a b : string) : string := (a ++ "/" ++ b)%string.

Definition example_path_absolute (cwd p : string) : string :=
  if String.prefix "/" p then p else example_path_join cwd p.

(** A file system whose only writable directory is [out]. *)
Definition example_open_error (path : string) : option PyError :=
  if String.prefix "out/" path then None else Some (FileNotFoundError path).

(** A Keras that refuses non-positive layer sizes and dropout rates
    outside [[0, 1]]. *)
Definition example_keras : MusicRnn.Keras :=
  fun layer =>
    match layer with
    | MusicRnn.LstmLayer l =>
        match MusicRnn.lstm_units l with
        | VInt z => if z <=? 0 then Some (ValueError "units") else None
        | VFloat q => if Qle_bool q 0 then Some (ValueError "units") else None
        | VBool b => if b then None else Some (ValueError "units")
        | _ => Some (TypeError "units")
        end
    | MusicRnn.DropoutLayer d =>
        match MusicRnn.rate d with
        | VInt z => if (0 <=? z) && (z <=? 1) then None
                    else Some (ValueError "rate")
        | VFloat q => if Qle_bool 0 q && Qle_bool q 1 then None
                      else Some (ValueError "rate")
        | VBool _ => None
        | _ => Some (TypeError "rate")
        end
    | _ => None
    end.

Definition example_runtime : Cli.Runtime :=
  Cli.mkRuntime ascii_upper example_logging_getattr example_name_to_level
    example_path_join
    example_path_absolute example_open_error (fun _ _ => None) example_keras.

(** A world whose random generator starts in the given state. *)
Definition example_world_seeded (state : Z) : Cli.World :=
  Cli.mkWorld 1700000000123 "2026-01-01 10:00:00" "2026-01-01 09:00:00"
    "/home/user" "/opt/composer" state (Cli.mkLogging false None)
    {[ "cfg.yml" := Cli.Text "dataset: ..." ]} example_fs
    {[ "ds/train" := ["a.bin"] ]} [] example_runtime.

Definition example_world : Cli.World := example_world_seeded 77.

(** A configuration loader that knows one file. *)
Definition example_config_get : string -> Cli.M Config.ConfigInstance :=
  fun path w =>
    match Cli.files w !! path with
    | Some _ => (w, Ok example_config)
    | None => (w, Raise (FileNotFoundError path))
    end.

(** A conversion step that writes the given output files. *)
Definition example_convert (outputs : list string) : Cli.M unit :=
  fun w =>
    (fold_left
       (fun w' path =>
          Cli.log_action (Cli.WroteFile path)
            (Cli.set_files (<[path := Cli.Text "ids"]> (Cli.files w')) w'))
       outputs w, Ok tt).

Definition example_split_dataset (outputs : list string)
    : Config.ConfigInstance -> string -> string -> Q -> bool -> Q -> Z
      -> Cli.M unit :=
  fun _ _ _ _ _ _ _ => example_convert outputs.

Definition example_convert_all (outputs : list string)
    : Config.ConfigInstance -> string -> string -> Z -> Cli.M unit :=
  fun _ _ _ _ => example_convert outputs.

(** [preprocess raw out --config cfg --no-transform --split] over the
    example collaborators. *)
Definition example_preprocess (outputs : list string)
    (config_filepath : option string) : Cli.World * result unit :=
  Cli.preprocess example_config_get (example_split_dataset outputs)
    (example_convert_all outputs) "raw" "out" 16 config_filepath false
    (1 # 2) true (3 # 10) true example_world.

Definition example_manifest : list (string * Cli.JVal) :=
  [ ("local_time", Cli.JStr "2026-01-01 10:00:00");
    ("utc_time", Cli.JStr "2026-01-01 09:00:00");
    ("raw_dataset_path", Cli.JStr "/home/user/raw");
    ("output_directory", Cli.JStr "/home/user/out");
    ("transform", Cli.JBool false);
    ("transform_percent", Cli.JNum (1 # 2));
    ("split", Cli.JBool true);
    ("test_percent", Cli.JNum (3 # 10));
    ("seed", Cli.JInt 77) ].

(** The configuration path [evaluate] loads. *)
Definition evaluate_config_path (w : Cli.World) (model_type : Cli.ModelType)
    (config_filepath : option string) : string :=
  match config_filepath with
  | Some p => if String.eqb p "" then Cli.get_default_config w model_type else p
  | None => Cli.get_default_config w model_type
  end.

(** What [metadata.json] of the output directory holds, if it was written. *)
Definition manifest_of (w : Cli.World) (output_directory : string)
    : option (list (string * Cli.JVal)) :=
  match Cli.files w !! Cli.joinpath w output_directory "metadata.json" with
  | Some (Cli.Json entries) => Some entries
  | _ => None
  end.

(** * [MusicRNN.call]: the forward pass *)

Module Forward.

Section Call.

(** What flows through the network, and what each kind of Keras layer
    does to it; [BatchNormalization] layers are told apart by their
    position in [normalization_layers]. *)
Variable Tensor : Type.
Variable lstm : MusicRnn.LSTM -> Tensor -> Tensor.
Variable dropout : MusicRnn.Dropout -> Tensor -> Tensor.
Variable normalization : Z -> Tensor -> Tensor.
Variable dense : MusicRnn.Dense -> Tensor -> Tensor.

(** The body of [for i in range(self.lstm_layers_count)]. *)
Fixpoint call_loop (m : MusicRnn.MusicRNN) (idxs : list Z) (inputs : Tensor)
    : result Tensor :=
  match idxs with
  | [] => Ok inputs
  | i :: rest =>
      let* lstm_layer := index (MusicRnn.lstm_layers m) i in
      let inputs := lstm lstm_layer inputs in
      let* dropout_layer := index (MusicRnn.dropout_layers m) i in
      let inputs := dropout dropout_layer inputs in
      let* inputs :=
        match MusicRnn.normalization_layers m with
        | None => Ok inputs
        | Some k =>
            let* _ := index (repeat tt k) i in
            Ok (normalization i inputs)
        end in
      call_loop m rest inputs
  end.

Definition call (m : MusicRnn.MusicRNN) (inputs : Tensor) : result Tensor :=
  let* count := as_index (MusicRnn.lstm_layers_count m) in
  let* inputs := call_loop m (range count) inputs in
  let inputs := dense (MusicRnn.dense_layer m) inputs in
  let inputs := dense (MusicRnn.output_layer m) inputs in
  Ok inputs.

(** One pass through LSTM layer [i] of a stack of [n] uniform layers. *)
Definition uniform_step (size p window_size input_event_dimensions : PyVal)
    (n : Z) (batch_normalization : bool) (inputs : Tensor) (i : Z) : Tensor :=
  let after :=
    dropout (MusicRnn.mkDropout p)
      (lstm (MusicRnn.mkLSTM size (window_size, input_event_dimensions)
               (i <? n - 1)) inputs) in
  if batch_normalization then normalization i after else after.

End Call.

End Forward.

(** The LSTM stack [__init__] builds from scalar settings. *)
Definition uniform_lstm_layers (size window_size input_event_dimensions : PyVal)
    (n : Z) : list MusicRnn.LSTM :=
  map (fun i => MusicRnn.mkLSTM size (window_size, input_event_dimensions)
                  (i <? n - 1)) (range n).

(** The layers [__init__] constructs from scalar settings: LSTM layers
    that do and do not return sequences, a dropout layer, the two dense
    layers and, with batch normalisation, a normalisation layer. *)
Definition uniform_stack_layers (size p window_size input_event_dimensions
    dense_layer_size output_event_dimensions : PyVal)
    (batch_normalization : bool) : list MusicRnn.Layer :=
  [ MusicRnn.LstmLayer
      (MusicRnn.mkLSTM size (window_size, input_event_dimensions) true);
    MusicRnn.LstmLayer
      (MusicRnn.mkLSTM size (window_size, input_event_dimensions) false);
    MusicRnn.DropoutLayer (MusicRnn.mkDropout p);
    MusicRnn.DenseLayer (MusicRnn.mkDense dense_layer_size "relu");
    MusicRnn.DenseLayer (MusicRnn.mkDense output_event_dimensions "softmax") ]
  ++ (if batch_normalization then [MusicRnn.BatchNormalizationLayer] else []).

(** Keras constructs each of the layers without raising. *)
Definition accepted (keras : MusicRnn.Keras) (layers : list MusicRnn.Layer)
    : Prop :=
  Forall (fun layer => keras layer = None) layers.

(** The model [__init__] builds from a layer count and scalar settings. *)
Definition uniform_model (input_event_dimensions output_event_dimensions
    window_size size p dense_layer_size use_batch_normalization : PyVal)
    (n : Z) : MusicRnn.MusicRNN :=
  MusicRnn.mkMusicRNN (VInt n)
    (uniform_lstm_layers size window_size input_event_dimensions n)
    (repeat (MusicRnn.mkDropout p) (Z.to_nat n))
    (if truthy use_batch_normalization then Some (Z.to_nat n) else None)
    (MusicRnn.mkDense dense_layer_size "relu")
    (MusicRnn.mkDense output_event_dimensions "softmax").

(** Whether the extraction over one file ends without an exception. *)
Definition ends_normally (fs : gmap string EncodedFile) (W : Z)
    (filepath : string) : Prop :=
  snd (MusicRnn._get_sequences_from_file fs filepath W) = None.

(** The windows of each file, in file order. *)
Definition windows_of (fs : gmap string EncodedFile) (W : Z)
    (filepaths : list string) : list MusicRnn.Sample :=
  concat (map (fun p => fst (MusicRnn._get_sequences_from_file fs p W))
            filepaths).

(** A file whose input positions hold ids outside the vocabulary. *)
Definition example_file_unchecked : EncodedFile :=
  mkFile [5000; -7; 300] example_value_ranges example_ranges.

Definition example_fs_two : gmap string EncodedFile :=
  {[ "a.bin" := example_file; "b.bin" := example_file_unchecked ]}.

(** A conversion step that fails. *)
Definition example_failing_split_dataset
    : Config.ConfigInstance -> string -> string -> Q -> bool -> Q -> Z
      -> Cli.M unit :=
  fun _ _ _ _ _ _ _ w => (w, Raise (ExternalError "split_dataset")).

Definition example_failing_convert_all
    : Config.ConfigInstance -> string -> string -> Z -> Cli.M unit :=
  fun _ _ _ _ w => (w, Raise (ExternalError "convert_all")).

(** A configuration whose file is not where its [filepath] says. *)
Definition example_config_moved : Config.ConfigInstance :=
  Config.mkConfig "moved.yml" (Config.dataset example_config)
    (Config.model example_config) (Config.train example_config).

Definition example_config_get_moved : string -> Cli.M Config.ConfigInstance :=
  fun _ w => (w, Ok example_config_moved).

(** * Properties *)

(** ** Python helpers *)

Lemma bind_Ok_inv {A B : Type} (r : result A) (k : A -> result B) (b : B) :
  Py.bind r k = Ok b -> exists a, r = Ok a /\ k a = Ok b.
Proof. destruct r as [a|e]; simpl; intros H; [eauto | discriminate]. Qed.

Lemma range_length (n : Z) : length (range n) = Z.to_nat n.
Proof. unfold range. now rewrite length_map, length_seq. Qed.

Lemma In_range (n i : Z) : In i (range n) <-> 0 <= i < n.
Proof.
  unfold range. rewrite in_map_iff. split.
  - intros [k [<- Hk]]. apply in_seq in Hk. lia.
  - intros H. exists (Z.to_nat i). split; [lia|]. apply in_seq. lia.
Qed.

Lemma argmax_from_le (v : list Z) (bi i : Z) :
  Forall (fun x => x <= 1) v -> argmax_from bi 1 i v = bi.
Proof.
  revert i. induction v as [|x v IH]; intros i Hv; simpl; [reflexivity|].
  inversion Hv; subst.
  destruct (1 <? x) eqn:E; [apply Z.ltb_lt in E; lia|]. now apply IH.
Qed.

Section OneHot.

Variable hot : Z.

Lemma bits_le_1 (l : list Z) : Forall (fun x => x <= 1) (map (hot_bit hot) l).
Proof.
  apply List.Forall_forall. intros x Hx. apply in_map_iff in Hx as [j [<- _]].
  unfold hot_bit. destruct (j =? hot); lia.
Qed.

Lemma argmax_from_hot (m a : nat) (bi : Z) :
  Z.of_nat a <= hot < Z.of_nat (a + m) ->
  argmax_from bi 0 (Z.of_nat a) (map (hot_bit hot) (map Z.of_nat (seq a m)))
  = hot.
Proof.
  revert a bi. induction m as [|m IH]; intros a bi H; [lia|].
  cbn [seq map argmax_from]. unfold hot_bit at 1 2.
  destruct (Z.of_nat a =? hot) eqn:E.
  - apply Z.eqb_eq in E. change (0 <? 1) with true. cbv iota.
    rewrite argmax_from_le by apply bits_le_1. exact E.
  - apply Z.eqb_neq in E. change (0 <? 0) with false. cbv iota.
    replace (Z.of_nat a + 1) with (Z.of_nat (S a)) by lia.
    apply IH. lia.
Qed.

Lemma argmax_one_hot (n : Z) : 0 <= hot < n -> argmax (one_hot n hot) = Ok hot.
Proof.
  intros H. unfold one_hot, range.
  destruct (Z.to_nat n) as [|m] eqn:En; [lia|].
  cbn [seq map argmax]. f_equal. change (Z.of_nat 0) with 0.
  unfold hot_bit at 1. destruct (0 =? hot) eqn:E.
  - apply Z.eqb_eq in E. rewrite argmax_from_le by apply bits_le_1. exact E.
  - apply Z.eqb_neq in E. apply (argmax_from_hot m 1 0). lia.
Qed.

End OneHot.

Lemma one_hot_length (n i : Z) : length (one_hot n i) = Z.to_nat n.
Proof. unfold one_hot. now rewrite length_map, range_length. Qed.

(** ** The vocabulary *)

Lemma in_range_spec (id : Z) (r : PyRange) :
  in_range id r = true <-> start r <= id < stop r.
Proof. unfold in_range. rewrite andb_true_iff, Z.leb_le, Z.ltb_lt. tauto. Qed.

Lemma or_int_default (v : option Z) : MusicRnn.or_int v 0 = default 0 v.
Proof. destruct v as [[| |]|]; reflexivity. Qed.

Lemma compute_event_ranges_start_stop (dims : EventDimensions) (k : EventType) :
  stop (_compute_event_ranges dims k) = start (_compute_event_ranges dims k) + dims k.
Proof. destruct k; reflexivity. Qed.

Lemma compute_event_ranges_wf (dims : EventDimensions) :
  (forall k, 0 <= dims k) -> ranges_wf (_compute_event_ranges dims).
Proof.
  intros Hd. unfold ranges_wf. repeat split; try reflexivity.
  intros k. rewrite compute_event_ranges_start_stop. specialize (Hd k). lia.
Qed.

Lemma get_one_hot_size_wf (r : EventRanges) :
  ranges_wf r -> get_one_hot_size r = stop (r VELOCITY_CHANGE).
Proof.
  intros (H0 & H1 & H2 & H3 & Hle). unfold get_one_hot_size, range_len. simpl.
  pose proof (Hle NOTE_ON). pose proof (Hle NOTE_OFF).
  pose proof (Hle TIME_SHIFT). pose proof (Hle VELOCITY_CHANGE). lia.
Qed.

Lemma in_range_total (r : EventRanges) (k : EventType) (id : Z) :
  ranges_wf r -> in_range id (r k) = true -> 0 <= id < get_one_hot_size r.
Proof.
  intros Hwf Hin. rewrite (get_one_hot_size_wf r Hwf).
  destruct Hwf as (H0 & H1 & H2 & H3 & Hle).
  apply in_range_spec in Hin.
  pose proof (Hle NOTE_ON). pose proof (Hle NOTE_OFF).
  pose proof (Hle TIME_SHIFT). pose proof (Hle VELOCITY_CHANGE).
  destruct k; lia.
Qed.

(** The intervals are disjoint: the search finds the kind that holds the id. *)
Lemma find_kind_in_range (r : EventRanges) (k : EventType) (id : Z) :
  ranges_wf r -> in_range id (r k) = true ->
  find_kind id r canonical_order = Some k.
Proof.
  intros (H0 & H1 & H2 & H3 & Hle) Hin. apply in_range_spec in Hin.
  pose proof (Hle NOTE_ON). pose proof (Hle NOTE_OFF).
  pose proof (Hle TIME_SHIFT). pose proof (Hle VELOCITY_CHANGE).
  unfold find_kind, canonical_order.
  repeat match goal with
         | |- context [in_range id (r ?k')] =>
             let E := fresh "E" in
             destruct (in_range id (r k')) eqn:E;
             [apply in_range_spec in E
             |apply not_true_iff_false in E; rewrite in_range_spec in E]
         end;
  destruct k; try reflexivity; lia.
Qed.

Lemma find_kind_some (r : EventRanges) (id : Z) :
  ranges_wf r -> 0 <= id < get_one_hot_size r ->
  exists k, in_range id (r k) = true.
Proof.
  intros Hwf Hid. rewrite (get_one_hot_size_wf r Hwf) in Hid.
  destruct Hwf as (H0 & H1 & H2 & H3 & Hle).
  destruct (Z_lt_dec id (stop (r NOTE_ON))).
  { exists NOTE_ON. apply in_range_spec. lia. }
  destruct (Z_lt_dec id (stop (r NOTE_OFF))).
  { exists NOTE_OFF. apply in_range_spec. lia. }
  destruct (Z_lt_dec id (stop (r TIME_SHIFT))).
  { exists TIME_SHIFT. apply in_range_spec. lia. }
  exists VELOCITY_CHANGE. apply in_range_spec. lia.
Qed.

Lemma id_to_event_in_range (r : EventRanges) (vr : EventValueRanges)
    (k : EventType) (id : Z) :
  ranges_wf r -> in_range id (r k) = true ->
  id_to_event id r vr = Ok (mkEvent k (Some (id - start (r k)))).
Proof.
  intros Hwf Hin. unfold id_to_event.
  pose proof (in_range_total r k id Hwf Hin) as Hid.
  destruct (id <? 0) eqn:E1; [apply Z.ltb_lt in E1; lia|].
  destruct (get_one_hot_size r <=? id) eqn:E2; [apply Z.leb_le in E2; lia|].
  cbn [orb]. now rewrite (find_kind_in_range r k id Hwf Hin).
Qed.

Lemma event_as_one_hot_vector_in_range (r : EventRanges) (vr : EventValueRanges)
    (k : EventType) (v : Z) :
  ranges_wf r -> in_range (start (r k) + v) (r k) = true ->
  event_as_one_hot_vector (mkEvent k (Some v)) r vr
  = Ok (one_hot (get_one_hot_size r) (start (r k) + v)).
Proof.
  intros Hwf Hin. unfold event_as_one_hot_vector, event_to_id. simpl.
  rewrite Hin. simpl.
  pose proof (in_range_total r k _ Hwf Hin) as Hid.
  destruct (0 <=? start (r k) + v) eqn:E1; [|apply Z.leb_gt in E1; lia].
  destruct (start (r k) + v <? get_one_hot_size r) eqn:E2;
    [|apply Z.ltb_ge in E2; lia].
  reflexivity.
Qed.

(** Decoding a valid id and encoding it again gives the one-hot vector of
    that id. *)
Lemma label_of_valid_id (r : EventRanges) (vr : EventValueRanges) (id : Z) :
  ranges_wf r -> 0 <= id < get_one_hot_size r ->
  (let* event := id_to_event id r vr in event_as_one_hot_vector event r vr)
  = Ok (one_hot (get_one_hot_size r) id).
Proof.
  intros Hwf Hid. destruct (find_kind_some r id Hwf Hid) as [k Hk].
  rewrite (id_to_event_in_range r vr k id Hwf Hk). simpl.
  rewrite event_as_one_hot_vector_in_range; auto.
  - do 2 f_equal. lia.
  - replace (start (r k) + (id - start (r k))) with id by lia. exact Hk.
Qed.

(** ** The codec round trip *)

Section RoundTrip.

Variable dims : EventDimensions.
Hypothesis dims_nonneg : forall k, 0 <= dims k.

Local Abbreviation ranges := (_compute_event_ranges dims).

Variable value_ranges : EventValueRanges.

Lemma valid_event_in_range (k : EventType) (v : Z) :
  0 <= v < dims k -> in_range (start (ranges k) + v) (ranges k) = true.
Proof.
  intros Hv. apply in_range_spec.
  rewrite compute_event_ranges_start_stop. lia.
Qed.

Lemma round_trip_id (k : EventType) (v : Z) :
  0 <= v < dims k ->
  id_to_event (start (ranges k) + v) ranges value_ranges = Ok (mkEvent k (Some v)).
Proof.
  intros Hv.
  rewrite (id_to_event_in_range ranges value_ranges k).
  - do 3 f_equal. lia.
  - now apply compute_event_ranges_wf.
  - now apply valid_event_in_range.
Qed.

Lemma round_trip_generic (e : Event) :
  valid_event dims e ->
  (let* id := MusicRnn._encode_event_as_int e ranges in
   id_to_event id ranges value_ranges) = Ok e /\
  (let* id := event_to_id e ranges in
   id_to_event id ranges value_ranges) = Ok e /\
  (let* v := event_as_one_hot_vector e ranges value_ranges in
   one_hot_vector_as_event v ranges value_ranges) = Ok e.
Proof.
  destruct e as [k [v|]]; unfold valid_event; cbn [value type];
    [|discriminate].
  intros [_ Hv].
  pose proof (valid_event_in_range k v Hv) as Hin.
  pose proof (compute_event_ranges_wf dims dims_nonneg) as Hwf.
  repeat split.
  - unfold MusicRnn._encode_event_as_int. rewrite or_int_default.
    simpl. now apply round_trip_id.
  - unfold event_to_id. simpl. rewrite Hin. simpl. now apply round_trip_id.
  - rewrite (event_as_one_hot_vector_in_range ranges value_ranges k v Hwf Hin).
    simpl. unfold one_hot_vector_as_event.
    rewrite argmax_one_hot by exact (in_range_total ranges k _ Hwf Hin).
    simpl. now apply round_trip_id.
Qed.

End RoundTrip.

Lemma valid_configuration_dimensions (time_step_increment max_time_steps
    velocity_bins : Z) (value_ranges : EventValueRanges) :
  _compute_event_value_ranges time_step_increment max_time_steps velocity_bins
  = Ok value_ranges ->
  forall k, 0 < _compute_event_dimensions value_ranges k.
Proof.
  unfold _compute_event_value_ranges.
  destruct (time_step_increment <=? 0) eqn:E1; [discriminate|].
  destruct (max_time_steps <=? 0) eqn:E2; [discriminate|].
  destruct (velocity_bins <=? 0) eqn:E3; [discriminate|].
  destruct (max_time_steps <? time_step_increment) eqn:E4; [discriminate|].
  simpl. intros H k. injection H as <-.
  apply Z.leb_gt in E2, E3.
  unfold _compute_event_dimensions. destruct k; simpl; lia.
Qed.

(** C3: under every valid configuration, decoding the integer id of a
    valid event gives the event back, with the id computed by
    [_encode_event_as_int] as well as by the checked [event_to_id], and the
    one-hot form round-trips in the same way. *)
Theorem codec_round_trip (time_step_increment max_time_steps velocity_bins : Z)
    (value_ranges : EventValueRanges) (e : Event) :
  _compute_event_value_ranges time_step_increment max_time_steps velocity_bins
  = Ok value_ranges ->
  valid_event (_compute_event_dimensions value_ranges) e ->
  (let* id := MusicRnn._encode_event_as_int e
                (_compute_event_ranges (_compute_event_dimensions value_ranges)) in
   id_to_event id
     (_compute_event_ranges (_compute_event_dimensions value_ranges))
     value_ranges) = Ok e /\
  (let* id := event_to_id e
                (_compute_event_ranges (_compute_event_dimensions value_ranges)) in
   id_to_event id
     (_compute_event_ranges (_compute_event_dimensions value_ranges))
     value_ranges) = Ok e /\
  (let* v := event_as_one_hot_vector e
               (_compute_event_ranges (_compute_event_dimensions value_ranges))
               value_ranges in
   one_hot_vector_as_event v
     (_compute_event_ranges (_compute_event_dimensions value_ranges))
     value_ranges) = Ok e.
Proof.
  intros Hcfg Hvalid.
  apply round_trip_generic; [|exact Hvalid].
  intros k.
  pose proof (valid_configuration_dimensions _ _ _ _ Hcfg k). lia.
Qed.

Lemma codec_round_trip_witness :
  _compute_event_value_ranges 10 1000 32 = Ok example_value_ranges /\
  valid_event (_compute_event_dimensions example_value_ranges)
    (mkEvent TIME_SHIFT (Some 499)) /\
  (let* id := MusicRnn._encode_event_as_int (mkEvent TIME_SHIFT (Some 499))
                example_ranges in
   id_to_event id example_ranges example_value_ranges)
  = Ok (mkEvent TIME_SHIFT (Some 499)).
Proof.
  assert (Hvalid : valid_event (_compute_event_dimensions example_value_ranges)
                     (mkEvent TIME_SHIFT (Some 499))).
  { unfold valid_event, _compute_event_dimensions. simpl.
    split; [reflexivity | lia]. }
  split; [reflexivity|]. split; [exact Hvalid|].
  apply (codec_round_trip 10 1000 32 example_value_ranges
           (mkEvent TIME_SHIFT (Some 499))); [reflexivity | exact Hvalid].
Defined.

(** ** [_encode_event_as_int] performs no range check *)

(** A note-on event with value 200 lies outside its kind's range
    [[0, 128)]; [_encode_event_as_int] returns the id 200 all the same,
    where the checked [event_to_id] fails. *)
Lemma encode_event_as_int_out_of_range :
  in_range (start (example_ranges NOTE_ON) + 200) (example_ranges NOTE_ON) = false /\
  MusicRnn._encode_event_as_int (mkEvent NOTE_ON (Some 200)) example_ranges = Ok 200 /\
  MusicRnn._encode_event_as_int (mkEvent NOTE_ON (Some 200)) example_ranges
  <> Raise EncodingError /\
  event_to_id (mkEvent NOTE_ON (Some 200)) example_ranges = Raise EncodingError.
Proof. repeat split; try reflexivity. discriminate. Qed.

(** C4 (amended): [_encode_event_as_int] returns
    [ranges[event.kind].start + (event.value or 0)] for every event and
    never fails; the id lies inside [ranges[event.kind]] exactly when the
    value lies inside the kind's range, where it agrees with the checked
    [event_to_id]. *)
Theorem encode_event_as_int_unchecked (e : Event) (ranges : EventRanges) :
  MusicRnn._encode_event_as_int e ranges
  = Ok (start (ranges (type e)) + default 0 (value e)) /\
  (in_range (start (ranges (type e)) + default 0 (value e)) (ranges (type e)) = true
   <-> 0 <= default 0 (value e) < stop (ranges (type e)) - start (ranges (type e))) /\
  (in_range (start (ranges (type e)) + default 0 (value e)) (ranges (type e)) = true
   <-> event_to_id e ranges = MusicRnn._encode_event_as_int e ranges).
Proof.
  unfold MusicRnn._encode_event_as_int. rewrite or_int_default.
  split; [reflexivity|]. split.
  - rewrite in_range_spec. lia.
  - unfold event_to_id.
    destruct (in_range _ _); split; intros H; try reflexivity; discriminate.
Qed.

(** ** The windowing extractor *)

Lemma yield_each_all_ok {A : Type} (body : Z -> result A) (g : nat -> A)
    (n a : nat) :
  (forall i, (a <= i < a + n)%nat -> body (Z.of_nat i) = Ok (g i)) ->
  MusicRnn.yield_each body (map Z.of_nat (seq a n)) = (map g (seq a n), None).
Proof.
  revert a. induction n as [|n IH]; intros a H; [reflexivity|].
  cbn [seq map MusicRnn.yield_each].
  rewrite (H a) by lia. rewrite (IH (S a)); [reflexivity|].
  intros i Hi. apply H. lia.
Qed.

Lemma yield_each_In {A : Type} (body : Z -> result A) (idxs : list Z) (x : A) :
  In x (fst (MusicRnn.yield_each body idxs)) ->
  exists i, In i idxs /\ body i = Ok x.
Proof.
  induction idxs as [|i idxs IH]; simpl; [tauto|].
  destruct (body i) as [a|e] eqn:E; simpl; [|tauto].
  intros [<-|H]; [eauto|].
  destruct (IH H) as [j [Hj Hb]]. eauto.
Qed.

Lemma label_of_valid_id_ex (r : EventRanges) (vr : EventValueRanges) (id : Z) :
  ranges_wf r -> 0 <= id < get_one_hot_size r ->
  exists event, id_to_event id r vr = Ok event /\
                event_as_one_hot_vector event r vr
                = Ok (one_hot (get_one_hot_size r) id).
Proof.
  intros Hwf Hid. pose proof (label_of_valid_id r vr id Hwf Hid) as H.
  apply bind_Ok_inv in H. exact H.
Qed.

Lemma sequence_at_window (ids : list Z) (vr : EventValueRanges) (r : EventRanges)
    (W : Z) (i : nat) :
  0 <= W -> ranges_wf r ->
  Forall (fun id => 0 <= id < get_one_hot_size r) ids ->
  (Z.of_nat i + 1) * (W + 1) <= len ids ->
  MusicRnn.sequence_at ids vr r W (W + 1) (Z.of_nat i)
  = Ok (window_spec ids (get_one_hot_size r) W i).
Proof.
  intros HW Hwf Hids Hfit. unfold MusicRnn.sequence_at. cbv zeta.
  set (a := (i * Z.to_nat (W + 1))%nat).
  assert (Ha : Z.of_nat i * (W + 1) = Z.of_nat a).
  { unfold a. rewrite Nat2Z.inj_mul, Z2Nat.id by lia. reflexivity. }
  replace ((W + 1) * (Z.of_nat i + 1) - 1) with (Z.of_nat i * (W + 1) + W)
    by ring.
  assert (HL : Z.of_nat a + W + 1 <= len ids).
  { replace ((Z.of_nat i + 1) * (W + 1)) with (Z.of_nat i * (W + 1) + W + 1)
      in Hfit by ring.
    rewrite Ha in Hfit. exact Hfit. }
  rewrite Ha.
  clear Hfit Ha. unfold len in HL.
  assert (Hslice : slice ids (Z.of_nat a) (Z.of_nat a + W)
                   = take (Z.to_nat W) (drop a ids)).
  { unfold slice, slice_bound, len.
    destruct (Z.of_nat a <? 0) eqn:E1; [apply Z.ltb_lt in E1; lia|].
    destruct (Z.of_nat a + W <? 0) eqn:E2; [apply Z.ltb_lt in E2; lia|].
    rewrite !Z.min_l by lia. f_equal; [lia|]. f_equal. lia. }
  rewrite Hslice. unfold reshape_column.
  assert (Hlen : len (take (Z.to_nat W) (drop a ids)) = W).
  { unfold len. rewrite length_take, length_drop. lia. }
  rewrite Hlen, Z.eqb_refl. cbn [Py.bind].
  unfold index.
  destruct (Z.of_nat a + W <? 0) eqn:E2; [apply Z.ltb_lt in E2; lia|].
  rewrite E2.
  destruct (lookup_lt_is_Some_2 ids (Z.to_nat (Z.of_nat a + W))) as [x Hx];
    [lia|].
  rewrite Hx. cbn [Py.bind].
  assert (Hid : 0 <= x < get_one_hot_size r).
  { exact (Forall_lookup_1 _ _ _ _ Hids Hx). }
  destruct (label_of_valid_id_ex r vr x Hwf Hid) as [event [He Hy]].
  rewrite He. cbn [Py.bind]. rewrite Hy. cbn [Py.bind].
  unfold window_spec, chunk. fold a. do 2 f_equal.
  - rewrite take_take. f_equal. f_equal. lia.
  - f_equal. rewrite nth_lookup, lookup_take_lt by lia.
    rewrite lookup_drop.
    replace (a + Z.to_nat W)%nat with (Z.to_nat (Z.of_nat a + W)) by lia.
    now rewrite Hx.
Qed.

(** A chunk index below [L / (W+1)] leaves room for a whole chunk. *)
Lemma chunk_fits (L W : Z) (i : nat) :
  0 <= W -> 0 <= L -> (i < Z.to_nat (L / (W + 1)))%nat ->
  (Z.of_nat i + 1) * (W + 1) <= L.
Proof.
  intros HW HL Hi.
  assert (Hq : Z.of_nat i + 1 <= L / (W + 1)) by lia.
  pose proof (Z.mul_div_le L (W + 1) ltac:(lia)) as Hm.
  nia.
Qed.

(** C2: over one file holding [L] valid ids, the extraction yields
    exactly [floor(L / (W+1))] tuples and then stops normally; the
    [i]-th tuple's [x] is the first [W] ids of the [i]-th non-overlapping
    chunk of [W+1] ids taken from the start, and its [y] is the one-hot
    vector of the chunk's [(W+1)]-th id; a shorter trailing remainder is
    dropped. *)
Theorem get_sequences_from_file_windows (fs : gmap string EncodedFile)
    (filepath : string) (f : EncodedFile) (W : Z) :
  fs !! filepath = Some f ->
  0 <= W ->
  ranges_wf (event_ranges f) ->
  Forall (fun id => 0 <= id < get_one_hot_size (event_ranges f)) (event_ids f) ->
  MusicRnn._get_sequences_from_file fs filepath W
  = (windows_spec (event_ids f) (get_one_hot_size (event_ranges f)) W, None) /\
  len (fst (MusicRnn._get_sequences_from_file fs filepath W))
  = len (event_ids f) / (W + 1) /\
  forall i, (i < Z.to_nat (len (event_ids f) / (W + 1)))%nat ->
    fst (MusicRnn._get_sequences_from_file fs filepath W) !! i
    = Some (map (fun v => [v])
              (take (Z.to_nat W) (drop (i * Z.to_nat (W + 1)) (event_ids f))),
            one_hot (get_one_hot_size (event_ranges f))
              (nth (i * Z.to_nat (W + 1) + Z.to_nat W) (event_ids f) 0)).
Proof.
  intros Hfile HW Hwf Hids.
  assert (Hrun : MusicRnn._get_sequences_from_file fs filepath W
                 = (windows_spec (event_ids f)
                      (get_one_hot_size (event_ranges f)) W, None)).
  { unfold MusicRnn._get_sequences_from_file, event_ids_from_file.
    rewrite Hfile. unfold floordiv.
    destruct (W + 1 =? 0) eqn:E; [apply Z.eqb_eq in E; lia|].
    unfold range, windows_spec. apply yield_each_all_ok.
    intros i Hi. apply sequence_at_window; auto.
    apply chunk_fits; [lia | unfold len; lia | lia]. }
  assert (Hq : 0 <= len (event_ids f) / (W + 1)).
  { apply Z.div_pos; unfold len; lia. }
  rewrite Hrun. cbn [fst]. repeat split.
  - unfold windows_spec, len in *. rewrite length_map, length_seq. lia.
  - intros i Hi. unfold windows_spec.
    rewrite list_lookup_fmap, lookup_seq_lt by lia. cbn.
    unfold window_spec, chunk. do 2 f_equal.
    + rewrite take_take. do 2 f_equal. lia.
    + f_equal. rewrite !nth_lookup, lookup_take_lt by lia.
      now rewrite lookup_drop.
Qed.

Lemma example_ranges_wf : ranges_wf example_ranges.
Proof.
  apply compute_event_ranges_wf. intros k.
  unfold _compute_event_dimensions. destruct k; simpl; lia.
Qed.

Lemma example_ids_valid :
  Forall (fun id => 0 <= id < get_one_hot_size example_ranges)
    (event_ids example_file).
Proof.
  change (get_one_hot_size example_ranges) with 1288.
  repeat constructor; simpl; lia.
Qed.

Lemma get_sequences_from_file_windows_witness :
  example_fs !! "a.bin" = Some example_file /\
  0 <= 2 /\
  len (fst (MusicRnn._get_sequences_from_file example_fs "a.bin" 2))
  = len (event_ids example_file) / (2 + 1).
Proof.
  split; [reflexivity|]. split; [lia|].
  apply (get_sequences_from_file_windows example_fs "a.bin" example_file 2).
  - reflexivity.
  - lia.
  - exact example_ranges_wf.
  - exact example_ids_valid.
Defined.

(** ** The shape of the tuples the generator yields *)

Lemma In_slice (ids : list Z) (a b v : Z) : In v (slice ids a b) -> In v ids.
Proof.
  unfold slice. intros H. apply list_elem_of_In in H.
  apply elem_of_take in H as [i [Hi _]]. rewrite lookup_drop in Hi.
  apply list_elem_of_In. eapply list_elem_of_lookup_2. exact Hi.
Qed.

Lemma sequence_at_shape (ids : list Z) (vr : EventValueRanges) (r : EventRanges)
    (W E i : Z) (x : list (list Z)) (y : list Z) :
  MusicRnn.sequence_at ids vr r W E i = Ok (x, y) ->
  len x = W /\
  Forall (fun row => exists id, row = [id] /\ In id ids) x /\
  is_one_hot (get_one_hot_size r) y.
Proof.
  unfold MusicRnn.sequence_at. cbv zeta. intros H.
  apply bind_Ok_inv in H as [x' [Hx H]].
  apply bind_Ok_inv in H as [last [_ H]].
  apply bind_Ok_inv in H as [event [_ H]].
  apply bind_Ok_inv in H as [y' [Hy H]].
  injection H as <- <-.
  unfold reshape_column in Hx.
  destruct (len (slice ids (i * E) (E * (i + 1) - 1)) =? W) eqn:El;
    [|discriminate].
  injection Hx as <-. apply Z.eqb_eq in El.
  split; [|split].
  - unfold len in *. now rewrite length_map.
  - apply List.Forall_forall. intros row Hrow.
    apply in_map_iff in Hrow as [v [<- Hv]].
    exists v. split; [reflexivity|]. exact (In_slice _ _ _ _ Hv).
  - unfold event_as_one_hot_vector in Hy.
    apply bind_Ok_inv in Hy as [id [_ Hy]].
    destruct (0 <=? id) eqn:E1; [|discriminate].
    destruct (id <? get_one_hot_size r) eqn:E2; [|discriminate].
    injection Hy as <-. exists id. apply Z.leb_le in E1. apply Z.ltb_lt in E2.
    split; [lia | reflexivity].
Qed.

Lemma get_sequences_from_file_shape (fs : gmap string EncodedFile)
    (filepath : string) (W : Z) (x : list (list Z)) (y : list Z) :
  In (x, y) (fst (MusicRnn._get_sequences_from_file fs filepath W)) ->
  exists f, fs !! filepath = Some f /\
    len x = W /\
    Forall (fun row => exists id, row = [id] /\ In id (event_ids f)) x /\
    is_one_hot (get_one_hot_size (event_ranges f)) y.
Proof.
  unfold MusicRnn._get_sequences_from_file, event_ids_from_file.
  destruct (fs !! filepath) as [f|]; [|simpl; tauto].
  destruct (floordiv (len (event_ids f)) (W + 1)) as [n|e]; [|simpl; tauto].
  intros H. apply yield_each_In in H as [i [_ Hi]].
  exists f. split; [reflexivity|]. exact (sequence_at_shape _ _ _ _ _ _ _ _ Hi).
Qed.

Lemma generator_In (fs : gmap string EncodedFile) (filepaths : list string)
    (W : Z) (s : MusicRnn.Sample) :
  In s (fst (MusicRnn._generator fs filepaths W)) ->
  exists filepath, In filepath filepaths /\
    In s (fst (MusicRnn._get_sequences_from_file fs filepath W)).
Proof.
  induction filepaths as [|p rest IH]; simpl; [tauto|].
  destruct (snd (MusicRnn._get_sequences_from_file fs p W)); simpl.
  - intros H. eauto.
  - intros H. apply in_app_or in H as [H|H]; [eauto|].
    destruct (IH H) as [q [Hq Hs]]. eauto.
Qed.

Lemma one_hot_row_is_wide (n id : Z) : 1 < n -> ~ is_one_hot n [id].
Proof.
  intros Hn [i [_ H]]. apply (f_equal (@length Z)) in H.
  rewrite one_hot_length in H. simpl in H. lia.
Qed.

(** ** The dataset loader returns [None] *)

Lemma create_music_rnn_dataset_None_or_raise (fs : gmap string EncodedFile)
    (filepaths : list string) (batch_size window_size : Z)
    (use_generator show_loading_progress_bar : bool) (prefetch_buffer_size : Z) :
  MusicRnn.create_music_rnn_dataset fs filepaths batch_size window_size
    use_generator show_loading_progress_bar prefetch_buffer_size = Ok None \/
  exists e,
    MusicRnn.create_music_rnn_dataset fs filepaths batch_size window_size
      use_generator show_loading_progress_bar prefetch_buffer_size = Raise e.
Proof.
  unfold MusicRnn.create_music_rnn_dataset.
  destruct (MusicRnn.create_music_rnn_dataset_locals _ _ _ _ _ _ _); simpl;
    eauto.
Qed.

(** C1 (the code departs from it): [create_music_rnn_dataset] never
    returns a pair: whenever it returns, it returns [None], for the
    in-memory and the generator path alike (the generator path builds the
    local [dataset] and drops it), so [dataset, _ = load_dataset(...)] in
    [get_dataset] cannot produce a dataset: no call of [get_dataset]
    returns one. *)
Theorem create_music_rnn_dataset_returns_None :
  (forall fs filepaths batch_size window_size use_generator show prefetch r,
     MusicRnn.create_music_rnn_dataset fs filepaths batch_size window_size
       use_generator show prefetch = Ok r -> r = None) /\
  MusicRnn.create_music_rnn_dataset example_fs ["a.bin"] 32 2 false true 2
  = Ok None /\
  MusicRnn.create_music_rnn_dataset example_fs ["a.bin"] 32 2 true true 2
  = Ok None /\
  (exists d, MusicRnn.create_music_rnn_dataset_locals example_fs ["a.bin"] 32 2
               true true 2 = Ok (Some d, None)) /\
  (let* r := MusicRnn.create_music_rnn_dataset example_fs ["a.bin"] 32 2
               false true 2 in
   Cli.unpack_pair r)
  = Raise (TypeError "cannot unpack non-iterable NoneType object") /\
  Cli.get_train_dataset example_world Cli.MUSIC_RNN "ds" example_config
    false None true
  = Raise (TypeError "got an unexpected keyword argument") /\
  (forall w self dataset_path mode config use_generator max_files show,
     is_ok (Cli.get_dataset w self dataset_path mode config use_generator
              max_files show) = false).
Proof.
  split.
  { intros fs filepaths bs ws ug show pf r H.
    destruct (create_music_rnn_dataset_None_or_raise fs filepaths bs ws ug show pf)
      as [H'|[e H']]; congruence. }
  split; [vm_compute; reflexivity|].
  split; [vm_compute; reflexivity|].
  split; [eexists; vm_compute; reflexivity|].
  split; [vm_compute; reflexivity|].
  split; [vm_compute; reflexivity|].
  intros w self dataset_path mode config use_generator max_files show.
  unfold Cli.get_dataset.
  destruct (negb (Cli.mem mode ["train"; "test"])); [reflexivity|].
  destruct (Cli.listings w !! Cli.joinpath w dataset_path mode);
    [|reflexivity].
  destruct self. unfold Cli._load_music_rnn_dataset.
  destruct max_files; reflexivity.
Qed.

(** ** Positional binding in [create_model] *)

Lemma index_in_bounds {A : Type} (l : list A) (i : Z) :
  0 <= i < len l -> exists a, index l i = Ok a.
Proof.
  intros H. unfold index, len in *.
  destruct (i <? 0) eqn:E; [apply Z.ltb_lt in E; lia|]. rewrite E.
  destruct (lookup_lt_is_Some_2 l (Z.to_nat i)) as [a Ha]; [lia|].
  rewrite Ha. eauto.
Qed.

Lemma construct_Ok_inv {A : Type} (keras : MusicRnn.Keras)
    (layer : MusicRnn.Layer) (a b : A) :
  MusicRnn.construct keras layer a = Ok b -> keras layer = None /\ b = a.
Proof.
  unfold MusicRnn.construct. destruct (keras layer); [discriminate|].
  intros H. injection H as <-. split; reflexivity.
Qed.

Lemma construct_accepted {A : Type} (keras : MusicRnn.Keras)
    (layer : MusicRnn.Layer) (a : A) :
  keras layer = None -> MusicRnn.construct keras layer a = Ok a.
Proof. unfold MusicRnn.construct. now intros ->. Qed.

Lemma build_layers_shape (keras : MusicRnn.Keras) (bn : bool)
    (sizes dropouts : list PyVal) (count : Z)
    (window_size input_event_dimensions : PyVal) (idxs : list Z)
    (ls : list MusicRnn.LSTM) (ds : list MusicRnn.Dropout) :
  MusicRnn.build_layers keras bn sizes dropouts count window_size
    input_event_dimensions idxs = Ok (ls, ds) ->
  Forall (fun l => MusicRnn.input_shape l = (window_size, input_event_dimensions))
    ls /\
  length ls = length idxs.
Proof.
  revert ls ds. induction idxs as [|i idxs IH]; intros ls ds H.
  - injection H as <- <-. split; [constructor | reflexivity].
  - cbn [MusicRnn.build_layers] in H.
    apply bind_Ok_inv in H as [size [_ H]].
    apply bind_Ok_inv in H as [l [Hl H]].
    apply construct_Ok_inv in Hl as [_ ->].
    apply bind_Ok_inv in H as [p [_ H]].
    apply bind_Ok_inv in H as [d [_ H]].
    apply bind_Ok_inv in H as [u [_ H]].
    apply bind_Ok_inv in H as [[ls' ds'] [Hrest H]].
    injection H as <- <-. destruct (IH _ _ Hrest) as [Hf Hlen].
    split; [constructor; [reflexivity | exact Hf] | simpl; now rewrite Hlen].
Qed.

Lemma MusicRNN_init_body_layers (keras : MusicRnn.Keras)
    (input_event_dimensions output_event_dimensions
    window_size lstm_layers_count lstm_layer_sizes lstm_dropout_probability
    dense_layer_size use_batch_normalization : PyVal) (m : MusicRnn.MusicRNN) :
  MusicRnn.MusicRNN_init_body keras input_event_dimensions
    output_event_dimensions window_size lstm_layers_count lstm_layer_sizes
    lstm_dropout_probability dense_layer_size use_batch_normalization = Ok m ->
  MusicRnn.output_layer m = MusicRnn.mkDense output_event_dimensions "softmax" /\
  MusicRnn.dense_layer m = MusicRnn.mkDense dense_layer_size "relu" /\
  MusicRnn.lstm_layers_count m = lstm_layers_count /\
  Forall (fun l => MusicRnn.input_shape l = (window_size, input_event_dimensions))
    (MusicRnn.lstm_layers m).
Proof.
  unfold MusicRnn.MusicRNN_init_body. intros H.
  apply bind_Ok_inv in H as [sizes [_ H]].
  apply bind_Ok_inv in H as [dropouts [_ H]].
  apply bind_Ok_inv in H as [count [_ H]].
  apply bind_Ok_inv in H as [[ls ds] [Hb H]].
  apply bind_Ok_inv in H as [dl [Hdl H]].
  apply construct_Ok_inv in Hdl as [_ ->].
  apply bind_Ok_inv in H as [ol [Hol H]].
  apply construct_Ok_inv in Hol as [_ ->].
  injection H as <-. cbn.
  repeat split. exact (proj1 (build_layers_shape _ _ _ _ _ _ _ _ _ _ Hb)).
Qed.

Lemma per_layer_scalar (setting : PyVal) (n : Z) :
  isscalar setting = true -> 0 <= n ->
  MusicRnn.per_layer setting (VInt n) = Ok (repeat setting (Z.to_nat n)).
Proof.
  intros Hs Hn. unfold MusicRnn.per_layer, np_full. rewrite Hs. simpl.
  destruct (n <? 0) eqn:E; [apply Z.ltb_lt in E; lia | reflexivity].
Qed.

Lemma index_repeat {A : Type} (v : A) (n i : nat) :
  (i < n)%nat -> index (repeat v n) (Z.of_nat i) = Ok v.
Proof.
  intros Hi. unfold index.
  destruct (Z.of_nat i <? 0) eqn:E; [apply Z.ltb_lt in E; lia|]. rewrite E.
  rewrite Nat2Z.id. clear E.
  assert (H : repeat v n !! i = Some v).
  { revert i Hi. induction n as [|n IH]; intros i Hi; [lia|].
    destruct i as [|i]; [reflexivity|]. cbn. apply IH. lia. }
  now rewrite H.
Qed.

Section UniformStack.

Variable keras : MusicRnn.Keras.
Variables size p window_size input_event_dimensions : PyVal.
Variable n : Z.
Variable bn : bool.

(** Whatever Keras refuses, a stack that was built is the uniform one. *)
Lemma build_layers_Ok_uniform (total m a : nat)
    (built : list MusicRnn.LSTM * list MusicRnn.Dropout) :
  (a + m <= total)%nat ->
  MusicRnn.build_layers keras bn (repeat size total) (repeat p total) n
    window_size input_event_dimensions (map Z.of_nat (seq a m)) = Ok built ->
  built
  = (map (fun i => MusicRnn.mkLSTM size
                     (window_size, input_event_dimensions) (i <? n - 1))
       (map Z.of_nat (seq a m)),
     repeat (MusicRnn.mkDropout p) m).
Proof.
  revert a built. induction m as [|m IH]; intros a built Ha H.
  - injection H as <-. reflexivity.
  - cbn [seq map MusicRnn.build_layers] in H.
    rewrite !index_repeat in H by lia. cbn [Py.bind] in H.
    apply bind_Ok_inv in H as [l [Hl H]].
    apply construct_Ok_inv in Hl as [_ ->].
    apply bind_Ok_inv in H as [d [Hd H]].
    apply construct_Ok_inv in Hd as [_ ->].
    apply bind_Ok_inv in H as [u [_ H]].
    apply bind_Ok_inv in H as [more [Hmore H]].
    injection H as <-. rewrite (IH (S a) more) by (lia || exact Hmore).
    reflexivity.
Qed.

Lemma build_layers_uniform (total m a : nat) :
  (a + m <= total)%nat ->
  keras (MusicRnn.LstmLayer
           (MusicRnn.mkLSTM size (window_size, input_event_dimensions) true))
  = None ->
  keras (MusicRnn.LstmLayer
           (MusicRnn.mkLSTM size (window_size, input_event_dimensions) false))
  = None ->
  keras (MusicRnn.DropoutLayer (MusicRnn.mkDropout p)) = None ->
  (bn = true -> keras MusicRnn.BatchNormalizationLayer = None) ->
  MusicRnn.build_layers keras bn (repeat size total) (repeat p total) n
    window_size input_event_dimensions (map Z.of_nat (seq a m))
  = Ok (map (fun i => MusicRnn.mkLSTM size
                        (window_size, input_event_dimensions) (i <? n - 1))
          (map Z.of_nat (seq a m)),
        repeat (MusicRnn.mkDropout p) m).
Proof.
  intros Ha Ht Hf Hd Hbn. revert a Ha.
  induction m as [|m IH]; intros a Ha; [reflexivity|].
  cbn [seq map MusicRnn.build_layers].
  rewrite !index_repeat by lia. cbn [Py.bind].
  rewrite construct_accepted by (destruct (Z.of_nat a <? n - 1); assumption).
  cbn [Py.bind]. rewrite construct_accepted by assumption. cbn [Py.bind].
  assert (Hu : (if bn
                then MusicRnn.construct keras MusicRnn.BatchNormalizationLayer tt
                else Ok tt) = Ok tt).
  { destruct bn; [|reflexivity]. apply construct_accepted. now apply Hbn. }
  rewrite Hu. cbn [Py.bind]. rewrite (IH (S a)) by lia. reflexivity.
Qed.

End UniformStack.

Lemma accepted_uniform_stack (keras : MusicRnn.Keras) (size p window_size
    input_event_dimensions dense_layer_size output_event_dimensions : PyVal)
    (bn : bool) :
  accepted keras
    (uniform_stack_layers size p window_size input_event_dimensions
       dense_layer_size output_event_dimensions bn) ->
  keras (MusicRnn.LstmLayer
           (MusicRnn.mkLSTM size (window_size, input_event_dimensions) true))
  = None /\
  keras (MusicRnn.LstmLayer
           (MusicRnn.mkLSTM size (window_size, input_event_dimensions) false))
  = None /\
  keras (MusicRnn.DropoutLayer (MusicRnn.mkDropout p)) = None /\
  keras (MusicRnn.DenseLayer (MusicRnn.mkDense dense_layer_size "relu"))
  = None /\
  keras (MusicRnn.DenseLayer (MusicRnn.mkDense output_event_dimensions "softmax"))
  = None /\
  (bn = true -> keras MusicRnn.BatchNormalizationLayer = None).
Proof.
  unfold accepted, uniform_stack_layers. intros H.
  rewrite List.Forall_forall in H.
  repeat split;
    try (apply H; apply in_or_app; left; cbn; tauto).
  intros ->. apply H. apply in_or_app. right. cbn. tauto.
Qed.

Lemma MusicRNN_init_body_uniform (keras : MusicRnn.Keras)
    (input_event_dimensions output_event_dimensions window_size size p
    dense_layer_size use_batch_normalization : PyVal) (n : Z) :
  0 <= n -> isscalar size = true -> isscalar p = true ->
  accepted keras
    (uniform_stack_layers size p window_size input_event_dimensions
       dense_layer_size output_event_dimensions
       (truthy use_batch_normalization)) ->
  MusicRnn.MusicRNN_init_body keras input_event_dimensions
    output_event_dimensions window_size (VInt n) size p dense_layer_size
    use_batch_normalization
  = Ok (uniform_model input_event_dimensions output_event_dimensions
          window_size size p dense_layer_size use_batch_normalization n).
Proof.
  intros Hn Hs Hp Hacc.
  apply accepted_uniform_stack in Hacc as (Ht & Hf & Hd & Hdl & Hol & Hbn).
  unfold MusicRnn.MusicRNN_init_body.
  rewrite !per_layer_scalar by assumption. cbn [Py.bind as_index].
  unfold range. rewrite build_layers_uniform by (lia || assumption).
  cbn [Py.bind fst snd]. rewrite !construct_accepted by assumption.
  cbn [Py.bind]. unfold uniform_model, uniform_lstm_layers, range.
  now rewrite !length_map, length_seq.
Qed.

Lemma MusicRNN_init_body_Ok_uniform (keras : MusicRnn.Keras)
    (input_event_dimensions output_event_dimensions window_size size p
    dense_layer_size use_batch_normalization : PyVal) (n : Z)
    (m : MusicRnn.MusicRNN) :
  0 <= n -> isscalar size = true -> isscalar p = true ->
  MusicRnn.MusicRNN_init_body keras input_event_dimensions
    output_event_dimensions window_size (VInt n) size p dense_layer_size
    use_batch_normalization = Ok m ->
  m = uniform_model input_event_dimensions output_event_dimensions
        window_size size p dense_layer_size use_batch_normalization n.
Proof.
  intros Hn Hs Hp H. unfold MusicRnn.MusicRNN_init_body in H.
  rewrite !per_layer_scalar in H by assumption.
  cbn [Py.bind as_index] in H.
  apply bind_Ok_inv in H as [built [Hb H]].
  unfold range in Hb. apply build_layers_Ok_uniform in Hb; [|lia]. subst built.
  apply bind_Ok_inv in H as [dl [Hdl H]].
  apply construct_Ok_inv in Hdl as [_ ->].
  apply bind_Ok_inv in H as [ol [Hol H]].
  apply construct_Ok_inv in Hol as [_ ->].
  injection H as <-. cbn [fst snd]. unfold uniform_model, uniform_lstm_layers, range.
  now rewrite !length_map, length_seq.
Qed.

(** C8: [create_model] passes six positional arguments, which bind to the
    first six parameters of [MusicRNN.__init__] in order, so every
    argument after the first lands one parameter early and the last two
    parameters keep their defaults; a model, once constructed, has an
    output layer of width [config.model.window_size]; and construction
    does go through whenever [lstm_layer_sizes] is a non-negative
    integer, the two settings that follow it are scalars, and Keras
    accepts the layers these shifted values describe. *)
Theorem create_model_binds_by_position (w : Cli.World)
    (config : Config.ConfigInstance) (dimensions : Z) :
  bind_arguments MusicRnn.MusicRNN_init_params
    (Cli._create_music_rnn_args config dimensions) []
  = Ok [ ("input_event_dimensions", VInt dimensions);
         ("output_event_dimensions", Config.window_size (Config.model config));
         ("window_size", Config.lstm_layers_count (Config.model config));
         ("lstm_layers_count", Config.lstm_layer_sizes (Config.model config));
         ("lstm_layer_sizes",
          Config.lstm_dropout_probability (Config.model config));
         ("lstm_dropout_probability",
          Config.use_batch_normalization (Config.model config));
         ("dense_layer_size", VInt 256);
         ("use_batch_normalization", VBool true) ] /\
  (forall self model dims,
     Cli.create_model w self config = Ok (model, dims) ->
     MusicRnn.units (MusicRnn.output_layer model)
     = Config.window_size (Config.model config) /\
     MusicRnn.lstm_layers_count model
     = Config.lstm_layer_sizes (Config.model config) /\
     Forall (fun l => MusicRnn.input_shape l
                      = (Config.lstm_layers_count (Config.model config),
                         VInt dims))
       (MusicRnn.lstm_layers model)) /\
  (forall n,
     Cli.get_model_event_dimensions config = Ok dimensions ->
     Config.lstm_layer_sizes (Config.model config) = VInt n ->
     0 <= n ->
     isscalar (Config.lstm_dropout_probability (Config.model config)) = true ->
     isscalar (Config.use_batch_normalization (Config.model config)) = true ->
     accepted (Cli.keras (Cli.runtime w))
       (uniform_stack_layers
          (Config.lstm_dropout_probability (Config.model config))
          (Config.use_batch_normalization (Config.model config))
          (Config.lstm_layers_count (Config.model config)) (VInt dimensions)
          (VInt 256) (Config.window_size (Config.model config)) true) ->
     exists model,
       Cli.create_model w Cli.MUSIC_RNN config = Ok (model, dimensions)).
Proof.
  split; [reflexivity|]. split.
  - intros self model dims H. unfold Cli.create_model in H.
    apply bind_Ok_inv in H as [d [_ H]].
    apply bind_Ok_inv in H as [m [Hm H]].
    injection H as -> ->. destruct self.
    unfold Cli._create_music_rnn, MusicRnn.MusicRNN_new in Hm.
    apply bind_Ok_inv in Hm as [env [Henv Hm]].
    injection Henv as <-. cbn [arg String.eqb Ascii.eqb Bool.eqb] in Hm.
    apply MusicRNN_init_body_layers in Hm as (Ho & _ & Hc & Hs).
    rewrite Ho. auto.
  - intros n Hd Hsizes Hn Hdp Hbn Hacc. unfold Cli.create_model. rewrite Hd.
    cbn [Py.bind]. unfold Cli._create_music_rnn, MusicRnn.MusicRNN_new.
    change (bind_arguments MusicRnn.MusicRNN_init_params
              (Cli._create_music_rnn_args config dimensions) [])
      with (Ok [ ("input_event_dimensions", VInt dimensions);
                 ("output_event_dimensions",
                  Config.window_size (Config.model config));
                 ("window_size", Config.lstm_layers_count (Config.model config));
                 ("lstm_layers_count",
                  Config.lstm_layer_sizes (Config.model config));
                 ("lstm_layer_sizes",
                  Config.lstm_dropout_probability (Config.model config));
                 ("lstm_dropout_probability",
                  Config.use_batch_normalization (Config.model config));
                 ("dense_layer_size", VInt 256);
                 ("use_batch_normalization", VBool true) ]).
    cbn [Py.bind arg String.eqb Ascii.eqb Bool.eqb].
    rewrite Hsizes.
    rewrite MusicRNN_init_body_uniform by assumption.
    cbn [Py.bind]. eexists. reflexivity.
Qed.

Lemma create_model_binds_by_position_witness :
  Cli.get_model_event_dimensions example_config = Ok 1288 /\
  accepted (Cli.keras (Cli.runtime example_world))
    (uniform_stack_layers (VFloat (1 # 2)) (VBool true) (VInt 3) (VInt 1288)
       (VInt 256) (VInt 64) true) /\
  exists model,
    Cli.create_model example_world Cli.MUSIC_RNN example_config
    = Ok (model, 1288) /\
    MusicRnn.units (MusicRnn.output_layer model) = VInt 64.
Proof.
  assert (Hacc : accepted (Cli.keras (Cli.runtime example_world))
                   (uniform_stack_layers (VFloat (1 # 2)) (VBool true)
                      (VInt 3) (VInt 1288) (VInt 256) (VInt 64) true)).
  { repeat constructor. }
  split; [reflexivity|]. split; [exact Hacc|].
  destruct (create_model_binds_by_position example_world example_config 1288)
    as [_ [Hwidth Hbuilt]].
  destruct (Hbuilt 512 eq_refl eq_refl ltac:(lia) eq_refl eq_refl Hacc)
    as [model Hmodel].
  exists model. split; [exact Hmodel|].
  exact (proj1 (Hwidth Cli.MUSIC_RNN model 1288 Hmodel)).
Defined.

(** ** The input windows are not one-hot *)

(** C7 (the code departs from it): the input windows handed to the model
    are not in one-hot form. Every window [x] the dataset generator yields
    is a sequence of [W] rows that each hold one integer event id of the
    file (shape [(W, 1)]), and such a row is no one-hot vector of any
    width above 1; only the label [y] is one-hot. Yet [create_model]
    builds the network for input rows as wide as the vocabulary. With
    window size 2 the example file yields the windows [[3], [130]] and
    [[1200], [5]], where the vocabulary has 1288 events. *)
Theorem input_windows_are_not_one_hot :
  (forall fs filepaths W x y,
     In (x, y) (fst (MusicRnn._generator fs filepaths W)) ->
     exists filepath f,
       In filepath filepaths /\ fs !! filepath = Some f /\
       len x = W /\
       Forall (fun row => exists id, row = [id] /\ In id (event_ids f)) x /\
       is_one_hot (get_one_hot_size (event_ranges f)) y) /\
  (forall n id, 1 < n -> ~ is_one_hot n [id]) /\
  (forall w self config model dims,
     Cli.create_model w self config = Ok (model, dims) ->
     Cli.get_model_event_dimensions config = Ok dims /\
     Forall (fun l => snd (MusicRnn.input_shape l) = VInt dims)
       (MusicRnn.lstm_layers model)) /\
  MusicRnn._generator example_fs ["a.bin"] 2
  = ([ ([[3]; [130]], one_hot 1288 300); ([[1200]; [5]], one_hot 1288 6) ],
     None) /\
  Cli.get_model_event_dimensions example_config = Ok 1288 /\
  get_one_hot_size (event_ranges example_file) = 1288 /\
  ~ Forall (is_one_hot (get_one_hot_size (event_ranges example_file)))
      [[3]; [130]].
Proof.
  split.
  { intros fs filepaths W x y H. apply generator_In in H as [filepath [Hp H]].
    apply get_sequences_from_file_shape in H as [f [Hf H]].
    exists filepath, f. tauto. }
  split; [exact one_hot_row_is_wide|]. split.
  { intros w self config model dims H. unfold Cli.create_model in H.
    apply bind_Ok_inv in H as [d [Hd H]].
    apply bind_Ok_inv in H as [m [Hm H]].
    injection H as -> ->. split; [exact Hd|]. destruct self.
    unfold Cli._create_music_rnn, MusicRnn.MusicRNN_new in Hm.
    apply bind_Ok_inv in Hm as [env [Henv Hm]].
    injection Henv as <-. cbn [arg String.eqb Ascii.eqb Bool.eqb] in Hm.
    apply MusicRNN_init_body_layers in Hm as (_ & _ & _ & Hs).
    apply List.Forall_forall. intros l Hl.
    rewrite List.Forall_forall in Hs. now rewrite (Hs l Hl). }
  split; [vm_compute; reflexivity|]. split; [reflexivity|].
  split; [reflexivity|].
  intros H. inversion H as [|? ? H1 _]; subst.
  revert H1. apply one_hot_row_is_wide. change (1 < 1288). lia.
Qed.

(** ** The seed option *)

(** C5 (the code departs from it): [cli] computes the local [seed] and
    never hands it to the random generator: the generator state after
    [cli] is the state before it, whatever seed is given, so two runs with
    the same [--seed] start their augmentation and split draws from
    whatever states the two processes happened to begin with. *)
Theorem cli_never_seeds_generator :
  (forall verbosity seed w,
     Cli.np_random_state (fst (Cli.cli verbosity seed w)) = Cli.np_random_state w) /\
  (forall verbosity seed seed' w,
     Cli.cli verbosity seed w = Cli.cli verbosity seed' w) /\
  snd (Cli.cli "INFO" (Some 42) (example_world_seeded 77)) = Ok tt /\
  snd (Cli.cli "INFO" (Some 42) (example_world_seeded 78)) = Ok tt /\
  Cli.np_random_state (fst (Cli.cli "INFO" (Some 42) (example_world_seeded 77)))
  <> Cli.np_random_state (fst (Cli.cli "INFO" (Some 42) (example_world_seeded 78))).
Proof.
  split.
  { intros verbosity seed w. unfold Cli.cli, Cli.mbind, Cli.logging_utils_init,
      Cli._set_verbosity_level. cbn.
    destruct (Cli.logging_getattr _ _) as [[level|name|]|];
      unfold Cli.setLevel; try reflexivity.
    destruct (Cli.name_to_level _ name); reflexivity. }
  split; [reflexivity|].
  split; [reflexivity|]. split; [reflexivity|].
  vm_compute. discriminate.
Qed.

(** ** [preprocess] and [evaluate] *)

Section CommandProperties.

Variable config_get : string -> Cli.M Config.ConfigInstance.
Variable split_dataset :
  Config.ConfigInstance -> string -> string -> Q -> bool -> Q -> Z -> Cli.M unit.
Variable convert_all :
  Config.ConfigInstance -> string -> string -> Z -> Cli.M unit.

Lemma preprocess_default_config_call (w : Cli.World) :
  Cli.default_config_call w Cli.preprocess_locals Cli.preprocess_params None
  = Raise (NameError "model_type").
Proof. reflexivity. Qed.

Lemma evaluate_default_config_call (w : Cli.World) (model_type : Cli.ModelType)
    (bound : list string) :
  bound = Cli.evaluate_params ++ ["tf"] ->
  Cli.default_config_call w Cli.evaluate_locals bound (Some model_type)
  = Ok (Cli.get_default_config w model_type).
Proof. intros ->. reflexivity. Qed.

Lemma or_default_explicit (p : string) (d : result string) :
  p <> "" -> Cli.or_default (Some p) d = Ok p.
Proof.
  intros Hp. unfold Cli.or_default.
  destruct (String.eqb p "") eqn:E; [apply String.eqb_eq in E; contradiction|].
  reflexivity.
Qed.

Lemma preprocess_with_config
    (dataset_path output_directory : string) (num_workers : Z) (p : string)
    (transform : bool) (transform_percent : Q) (split : bool) (test_percent : Q)
    (output_metadata : bool) (w : Cli.World) :
  p <> "" ->
  Cli.preprocess config_get split_dataset convert_all dataset_path
    output_directory num_workers (Some p) transform transform_percent split
    test_percent output_metadata w
  = Cli.mbind (config_get p)
      (fun config =>
         Cli.preprocess_steps split_dataset convert_all config dataset_path
           output_directory num_workers transform transform_percent split
           test_percent output_metadata) w.
Proof.
  intros Hp. unfold Cli.preprocess, Cli.mbind at 1 2, Cli.lift.
  rewrite or_default_explicit by exact Hp. reflexivity.
Qed.

(** C9: without a configuration path (the option left out, or given as
    the empty string, which [or] treats alike) [preprocess] raises
    [NameError] for [model_type] as its first step, leaving everything
    untouched; with a non-empty path the default-config call is not
    evaluated and the command goes on to load that configuration. *)
Theorem preprocess_without_config_raises_NameError
    (dataset_path output_directory : string) (num_workers : Z)
    (transform : bool) (transform_percent : Q) (split : bool) (test_percent : Q)
    (output_metadata : bool) (w : Cli.World) :
  Cli.preprocess config_get split_dataset convert_all dataset_path
    output_directory num_workers None transform transform_percent split
    test_percent output_metadata w
  = (w, Raise (NameError "model_type")) /\
  Cli.preprocess config_get split_dataset convert_all dataset_path
    output_directory num_workers (Some "") transform transform_percent split
    test_percent output_metadata w
  = (w, Raise (NameError "model_type")) /\
  (forall p, p <> "" ->
     Cli.or_default (Some p)
       (Cli.default_config_call w Cli.preprocess_locals Cli.preprocess_params
          None) = Ok p /\
     Cli.preprocess config_get split_dataset convert_all dataset_path
       output_directory num_workers (Some p) transform transform_percent split
       test_percent output_metadata w
     = Cli.mbind (config_get p)
         (fun config =>
            Cli.preprocess_steps split_dataset convert_all config dataset_path
              output_directory num_workers transform transform_percent split
              test_percent output_metadata) w).
Proof.
  split; [reflexivity|]. split; [reflexivity|].
  intros p Hp. split; [now apply or_default_explicit|].
  now apply preprocess_with_config.
Qed.

(** C10: every invocation of [evaluate] ends in an exception: once the
    configuration is loaded, reading [dimensions] in
    [model_type.create_model(config, dimensions)] raises
    [UnboundLocalError], so the world is left as configuration loading
    left it and no model is created, compiled, restored or evaluated,
    and no dataset is loaded. *)
Theorem evaluate_always_raises (model_type : Cli.ModelType)
    (dataset_path restoredir : string) (config_filepath : option string)
    (use_generator : bool) (max_files : option Z) (w : Cli.World) :
  Cli.evaluate config_get model_type dataset_path restoredir config_filepath
    use_generator max_files w
  = (fst (config_get (evaluate_config_path w model_type config_filepath) w),
     Raise (match snd (config_get
                         (evaluate_config_path w model_type config_filepath) w)
            with
            | Ok _ => UnboundLocalError "dimensions"
            | Raise e => e
            end)).
Proof.
  unfold Cli.evaluate, evaluate_config_path. cbv zeta.
  unfold Cli.mbind at 1 2, Cli.lift.
  rewrite (evaluate_default_config_call w model_type _ eq_refl).
  unfold Cli.or_default.
  destruct config_filepath as [p|]; [destruct (String.eqb p "")|];
    match goal with
    | |- context [config_get ?q w] => destruct (config_get q w) as [w' [c|e]]
    end; reflexivity.
Qed.

(** C6 (amended): in a run of [preprocess] given a non-empty
    configuration path, with metadata output enabled, in which loading the
    configuration and the conversion call return normally, the manifest
    can be opened for writing, and the configuration file can be copied
    (it is readable, is not the path of the copy itself, and the copy
    meets no other error), [metadata.json] is written and then the
    configuration file is copied next to it, both only after the
    conversion call has returned; the manifest holds the two timestamps,
    the dataset and output paths, the transform and split settings and a
    seed field, and no counts. *)
Theorem preprocess_writes_manifest_after_conversion
    (dataset_path output_directory : string) (num_workers : Z) (p : string)
    (transform : bool) (transform_percent : Q) (split : bool) (test_percent : Q)
    (w w0 w1 : Cli.World) (config : Config.ConfigInstance) (content : Cli.Content) :
  p <> "" ->
  config_get p w = (w0, Ok config) ->
  (if split
   then split_dataset config dataset_path output_directory test_percent
          transform transform_percent num_workers
   else convert_all config dataset_path output_directory num_workers) w0
  = (w1, Ok tt) ->
  Cli.open_error (Cli.runtime w1)
    (Cli.joinpath w1 output_directory "metadata.json") = None ->
  <[Cli.joinpath w1 output_directory "metadata.json" :=
      Cli.Json (Cli.metadata w1 dataset_path output_directory transform
                  transform_percent split test_percent)]> (Cli.files w1)
    !! Config.filepath config = Some content ->
  Config.filepath config <> Cli.joinpath w1 output_directory "config.yml" ->
  Cli.copy_error (Cli.runtime w1) (Config.filepath config)
    (Cli.joinpath w1 output_directory "config.yml") = None ->
  exists w2,
    Cli.preprocess config_get split_dataset convert_all dataset_path
      output_directory num_workers (Some p) transform transform_percent split
      test_percent true w = (w2, Ok tt) /\
    Cli.files w2
    = <[Cli.joinpath w1 output_directory "config.yml" := content]>
        (<[Cli.joinpath w1 output_directory "metadata.json" :=
             Cli.Json (Cli.metadata w1 dataset_path output_directory transform
                         transform_percent split test_percent)]> (Cli.files w1)) /\
    Cli.trace w2
    = Cli.trace w1
      ++ [ Cli.WroteFile (Cli.joinpath w1 output_directory "metadata.json");
           Cli.CopiedFile (Config.filepath config)
             (Cli.joinpath w1 output_directory "config.yml") ] /\
    map fst (Cli.metadata w1 dataset_path output_directory transform
               transform_percent split test_percent)
    = [ "local_time"; "utc_time"; "raw_dataset_path"; "output_directory";
        "transform"; "transform_percent"; "split"; "test_percent"; "seed" ].
Proof.
  intros Hp Hcfg Hconv Hopen Hsrc Hdst Hcopy.
  rewrite preprocess_with_config by exact Hp.
  unfold Cli.mbind at 1. rewrite Hcfg.
  unfold Cli.preprocess_steps, Cli.mbind at 1. rewrite Hconv.
  cbn [negb]. unfold Cli.mbind, Cli.dump_json. rewrite Hopen.
  unfold Cli.copy2, Cli.joinpath in *.
  cbn [Cli.files Cli.runtime Cli.set_files Cli.log_action] in *.
  rewrite Hsrc.
  destruct (String.eqb _ _) eqn:E; [apply String.eqb_eq in E; contradiction|].
  rewrite Hcopy.
  eexists. split; [reflexivity|].
  cbn [Cli.files Cli.trace Cli.set_files Cli.log_action].
  rewrite <- app_assoc. repeat split.
Qed.

End CommandProperties.

Lemma preprocess_without_config_raises_NameError_witness :
  "cfg.yml" <> "" /\
  example_preprocess ["out/train/a.bin"] (Some "cfg.yml")
  = Cli.mbind (example_config_get "cfg.yml")
      (fun config =>
         Cli.preprocess_steps (example_split_dataset ["out/train/a.bin"])
           (example_convert_all ["out/train/a.bin"]) config "raw" "out" 16
           false (1 # 2) true (3 # 10) true) example_world.
Proof.
  split; [discriminate|].
  exact (proj2 (proj2 (proj2
           (preprocess_without_config_raises_NameError example_config_get
              (example_split_dataset ["out/train/a.bin"])
              (example_convert_all ["out/train/a.bin"]) "raw" "out" 16 false
              (1 # 2) true (3 # 10) true example_world))
           "cfg.yml" ltac:(discriminate))).
Defined.

(** The manifest does not capture counts: converting two files or none
    gives the same manifest, whose keys name no count; and a run without
    a configuration path writes no manifest at all. *)
Lemma preprocess_manifest_has_no_counts :
  snd (example_preprocess ["out/train/a.bin"; "out/test/b.bin"] (Some "cfg.yml"))
  = Ok tt /\
  manifest_of
    (fst (example_preprocess ["out/train/a.bin"; "out/test/b.bin"]
            (Some "cfg.yml"))) "out" = Some example_manifest /\
  manifest_of (fst (example_preprocess [] (Some "cfg.yml"))) "out"
  = Some example_manifest /\
  map fst example_manifest
  = [ "local_time"; "utc_time"; "raw_dataset_path"; "output_directory";
      "transform"; "transform_percent"; "split"; "test_percent"; "seed" ] /\
  manifest_of
    (fst (example_preprocess ["out/train/a.bin"; "out/test/b.bin"] None)) "out"
  = None.
Proof. repeat split; vm_compute; reflexivity. Qed.

Lemma preprocess_writes_manifest_after_conversion_witness :
  exists w2,
    example_preprocess ["out/train/a.bin"] (Some "cfg.yml") = (w2, Ok tt) /\
    Cli.trace w2
    = [ Cli.WroteFile "out/train/a.bin"; Cli.WroteFile "out/metadata.json";
        Cli.CopiedFile "cfg.yml" "out/config.yml" ].
Proof.
  destruct (preprocess_writes_manifest_after_conversion example_config_get
              (example_split_dataset ["out/train/a.bin"])
              (example_convert_all ["out/train/a.bin"]) "raw" "out" 16
              "cfg.yml" false (1 # 2) true (3 # 10) example_world example_world
              (fst (example_convert ["out/train/a.bin"] example_world))
              example_config (Cli.Text "dataset: ..."))
    as [w2 [Hrun [_ [Htrace _]]]].
  - discriminate.
  - reflexivity.
  - reflexivity.
  - reflexivity.
  - vm_compute. reflexivity.
  - vm_compute. discriminate.
  - reflexivity.
  - exists w2. split; [exact Hrun | exact Htrace].
Defined.

(** * Further properties of the code *)

(** ** The generator over several files *)

Lemma generator_app (fs : gmap string EncodedFile) (pre post : list string)
    (W : Z) :
  MusicRnn._generator fs (pre ++ post) W
  = match snd (MusicRnn._generator fs pre W) with
    | Some e => MusicRnn._generator fs pre W
    | None => (fst (MusicRnn._generator fs pre W)
               ++ fst (MusicRnn._generator fs post W),
               snd (MusicRnn._generator fs post W))
    end.
Proof.
  induction pre as [|p pre IH]; cbn [app MusicRnn._generator].
  - cbn. now destruct (MusicRnn._generator fs post W).
  - destruct (snd (MusicRnn._get_sequences_from_file fs p W)) eqn:Ep.
    + cbn [snd]. reflexivity.
    + rewrite IH.
      destruct (snd (MusicRnn._generator fs pre W)) eqn:Epre; cbn [fst snd].
      * rewrite Epre. reflexivity.
      * now rewrite app_assoc.
Qed.

Lemma generator_all_normal (fs : gmap string EncodedFile)
    (filepaths : list string) (W : Z) :
  Forall (ends_normally fs W) filepaths ->
  MusicRnn._generator fs filepaths W = (windows_of fs W filepaths, None).
Proof.
  induction filepaths as [|p rest IH]; intros H; [reflexivity|].
  inversion H as [|? ? Hp Hrest]; subst. unfold ends_normally in Hp.
  cbn [MusicRnn._generator]. rewrite Hp, (IH Hrest). reflexivity.
Qed.

(** X1: When the extraction of every file ends normally, the generator yields
    the windows of the files one file after the other, in the order of
    [filepaths], and ends normally; windows never mix across files. *)
Theorem generator_concatenates_files (fs : gmap string EncodedFile)
    (filepaths : list string) (W : Z) :
  Forall (ends_normally fs W) filepaths ->
  MusicRnn._generator fs filepaths W = (windows_of fs W filepaths, None) /\
  length (fst (MusicRnn._generator fs filepaths W))
  = list_sum (map (fun p => length (fst (MusicRnn._get_sequences_from_file
                                          fs p W))) filepaths).
Proof.
  intros H. rewrite (generator_all_normal fs filepaths W H).
  split; [reflexivity|]. cbn [fst]. unfold windows_of.
  clear H. induction filepaths as [|p rest IH]; [reflexivity|].
  cbn [map concat list_sum]. rewrite length_app, IH. reflexivity.
Qed.

Lemma example_fs_two_ends_normally :
  Forall (ends_normally example_fs_two 2) ["a.bin"; "b.bin"].
Proof. repeat constructor. Qed.

Lemma generator_concatenates_files_witness :
  Forall (ends_normally example_fs_two 2) ["a.bin"; "b.bin"] /\
  length (fst (MusicRnn._generator example_fs_two ["a.bin"; "b.bin"] 2))
  = list_sum (map (fun p => length (fst (MusicRnn._get_sequences_from_file
                                          example_fs_two p 2)))
                ["a.bin"; "b.bin"]).
Proof.
  split; [exact example_fs_two_ends_normally|].
  exact (proj2 (generator_concatenates_files example_fs_two
                  ["a.bin"; "b.bin"] 2 example_fs_two_ends_normally)).
Defined.

(** X2: The generator stops at the first file whose extraction raises: it has
    yielded the windows of the files before it and the tuples that file
    produced before failing, and the files after it are never read. *)
Theorem generator_stops_at_first_failure (fs : gmap string EncodedFile)
    (pre post : list string) (p : string) (W : Z) (e : PyError) :
  Forall (ends_normally fs W) pre ->
  snd (MusicRnn._get_sequences_from_file fs p W) = Some e ->
  MusicRnn._generator fs (pre ++ p :: post) W
  = (windows_of fs W pre ++ fst (MusicRnn._get_sequences_from_file fs p W),
     Some e).
Proof.
  intros Hpre Hp. rewrite generator_app, (generator_all_normal fs pre W Hpre).
  cbn [fst snd MusicRnn._generator]. rewrite Hp. reflexivity.
Qed.

Lemma generator_stops_at_first_failure_witness :
  Forall (ends_normally example_fs 2) ["a.bin"] /\
  snd (MusicRnn._get_sequences_from_file example_fs "missing.bin" 2)
  = Some (FileNotFoundError "missing.bin") /\
  MusicRnn._generator example_fs (["a.bin"] ++ "missing.bin" :: ["a.bin"]) 2
  = (windows_of example_fs 2 ["a.bin"]
     ++ fst (MusicRnn._get_sequences_from_file example_fs "missing.bin" 2),
     Some (FileNotFoundError "missing.bin")).
Proof.
  assert (H1 : Forall (ends_normally example_fs 2) ["a.bin"]).
  { repeat constructor. }
  assert (H2 : snd (MusicRnn._get_sequences_from_file example_fs
                      "missing.bin" 2)
               = Some (FileNotFoundError "missing.bin")).
  { vm_compute. reflexivity. }
  split; [exact H1|]. split; [exact H2|].
  exact (generator_stops_at_first_failure example_fs ["a.bin"] ["a.bin"]
           "missing.bin" 2 (FileNotFoundError "missing.bin") H1 H2).
Defined.

(** ** Edge cases of the extraction over one file *)

(** X3: A stream shorter than [W + 1] ids, the empty stream included, yields
    no tuple and raises nothing. *)
Theorem short_stream_yields_nothing (fs : gmap string EncodedFile)
    (filepath : string) (f : EncodedFile) (W : Z) :
  fs !! filepath = Some f ->
  0 <= W ->
  len (event_ids f) < W + 1 ->
  MusicRnn._get_sequences_from_file fs filepath W = ([], None).
Proof.
  intros Hf HW Hshort.
  unfold MusicRnn._get_sequences_from_file, event_ids_from_file, floordiv.
  rewrite Hf. destruct (W + 1 =? 0) eqn:E; [apply Z.eqb_eq in E; lia|].
  rewrite Z.div_small by (unfold len in *; lia). reflexivity.
Qed.

Lemma short_stream_yields_nothing_witness :
  example_fs !! "a.bin" = Some example_file /\
  MusicRnn._get_sequences_from_file example_fs "a.bin" 7 = ([], None).
Proof.
  split; [reflexivity|].
  apply (short_stream_yields_nothing example_fs "a.bin" example_file 7).
  - reflexivity.
  - lia.
  - vm_compute. reflexivity.
Defined.

(** X4: A window size of -1 makes the chunk length zero: the extraction over
    any existing file raises [ZeroDivisionError] before yielding; a window
    size below -1 is accepted silently and yields nothing. *)
Theorem negative_window_sizes (fs : gmap string EncodedFile)
    (filepath : string) (f : EncodedFile) (W : Z) :
  fs !! filepath = Some f ->
  W < 0 ->
  MusicRnn._get_sequences_from_file fs filepath W
  = ([], if W =? -1 then Some ZeroDivisionError else None).
Proof.
  intros Hf HW.
  unfold MusicRnn._get_sequences_from_file, event_ids_from_file, floordiv.
  rewrite Hf. destruct (W =? -1) eqn:E.
  - apply Z.eqb_eq in E. subst W. reflexivity.
  - apply Z.eqb_neq in E.
    destruct (W + 1 =? 0) eqn:E0; [apply Z.eqb_eq in E0; lia|].
    assert (Hq : len (event_ids f) / (W + 1) <= 0).
    { pose proof (Z.div_mod (len (event_ids f)) (W + 1) ltac:(lia)) as Hdm.
      pose proof (Z.mod_neg_bound (len (event_ids f)) (W + 1) ltac:(lia)) as Hm.
      unfold len in *. nia. }
    unfold range. replace (Z.to_nat (len (event_ids f) / (W + 1))) with 0%nat
      by lia.
    reflexivity.
Qed.

Lemma negative_window_sizes_witness :
  example_fs !! "a.bin" = Some example_file /\
  MusicRnn._get_sequences_from_file example_fs "a.bin" (-3) = ([], None).
Proof.
  split; [reflexivity|].
  apply (negative_window_sizes example_fs "a.bin" example_file (-3));
    [reflexivity | lia].
Defined.

(** X5: A path that names no file raises [FileNotFoundError] whatever the
    window size, -1 included: the file is read before the chunk length is
    used. *)
Theorem missing_file_raises_first (fs : gmap string EncodedFile)
    (filepath : string) (W : Z) :
  fs !! filepath = None ->
  MusicRnn._get_sequences_from_file fs filepath W
  = ([], Some (FileNotFoundError filepath)).
Proof.
  intros Hf. unfold MusicRnn._get_sequences_from_file, event_ids_from_file.
  now rewrite Hf.
Qed.

Lemma missing_file_raises_first_witness :
  example_fs !! "missing.bin" = None /\
  MusicRnn._get_sequences_from_file example_fs "missing.bin" (-1)
  = ([], Some (FileNotFoundError "missing.bin")).
Proof.
  split; [reflexivity|].
  apply (missing_file_raises_first example_fs "missing.bin" (-1)).
  reflexivity.
Defined.

(** ** Only the label of a chunk is decoded *)

Lemma sequence_at_label (ids : list Z) (vr : EventValueRanges) (r : EventRanges)
    (W : Z) (i : nat) :
  0 <= W -> ranges_wf r ->
  (Z.of_nat i + 1) * (W + 1) <= len ids ->
  0 <= nth (i * Z.to_nat (W + 1) + Z.to_nat W) ids 0 < get_one_hot_size r ->
  MusicRnn.sequence_at ids vr r W (W + 1) (Z.of_nat i)
  = Ok (window_spec ids (get_one_hot_size r) W i).
Proof.
  intros HW Hwf Hfit Hlabel. unfold MusicRnn.sequence_at. cbv zeta.
  set (a := (i * Z.to_nat (W + 1))%nat) in *.
  assert (Ha : Z.of_nat i * (W + 1) = Z.of_nat a).
  { unfold a. rewrite Nat2Z.inj_mul, Z2Nat.id by lia. reflexivity. }
  replace ((W + 1) * (Z.of_nat i + 1) - 1) with (Z.of_nat i * (W + 1) + W)
    by ring.
  assert (HL : Z.of_nat a + W + 1 <= len ids).
  { replace ((Z.of_nat i + 1) * (W + 1)) with (Z.of_nat i * (W + 1) + W + 1)
      in Hfit by ring.
    rewrite Ha in Hfit. exact Hfit. }
  rewrite Ha. clear Hfit Ha. unfold len in HL.
  assert (Hslice : slice ids (Z.of_nat a) (Z.of_nat a + W)
                   = take (Z.to_nat W) (drop a ids)).
  { unfold slice, slice_bound, len.
    destruct (Z.of_nat a <? 0) eqn:E1; [apply Z.ltb_lt in E1; lia|].
    destruct (Z.of_nat a + W <? 0) eqn:E2; [apply Z.ltb_lt in E2; lia|].
    rewrite !Z.min_l by lia. f_equal; [lia|]. f_equal. lia. }
  rewrite Hslice. unfold reshape_column.
  assert (Hlen : len (take (Z.to_nat W) (drop a ids)) = W).
  { unfold len. rewrite length_take, length_drop. lia. }
  rewrite Hlen, Z.eqb_refl. cbn [Py.bind].
  unfold index.
  destruct (Z.of_nat a + W <? 0) eqn:E2; [apply Z.ltb_lt in E2; lia|].
  rewrite E2.
  destruct (lookup_lt_is_Some_2 ids (Z.to_nat (Z.of_nat a + W))) as [x Hx];
    [lia|].
  rewrite Hx. cbn [Py.bind].
  assert (Hnth : nth (a + Z.to_nat W) ids 0 = x).
  { apply nth_lookup_Some.
    replace (a + Z.to_nat W)%nat with (Z.to_nat (Z.of_nat a + W)) by lia.
    exact Hx. }
  rewrite Hnth in Hlabel.
  destruct (label_of_valid_id_ex r vr x Hwf Hlabel) as [event [He Hy]].
  rewrite He. cbn [Py.bind]. rewrite Hy. cbn [Py.bind].
  unfold window_spec, chunk. fold a. do 2 f_equal.
  - rewrite take_take. f_equal. f_equal. lia.
  - f_equal. rewrite nth_lookup, lookup_take_lt by lia.
    rewrite lookup_drop.
    replace (a + Z.to_nat W)%nat with (Z.to_nat (Z.of_nat a + W)) by lia.
    now rewrite Hx.
Qed.

(** X6: The ids that go into an input window are sliced out of the stream
    and never decoded or range-checked: the extraction succeeds, with the
    same tuples, as soon as the id at each label position is a valid id,
    whatever the other ids are. *)
Theorem only_labels_are_decoded (fs : gmap string EncodedFile)
    (filepath : string) (f : EncodedFile) (W : Z) :
  fs !! filepath = Some f ->
  0 <= W ->
  ranges_wf (event_ranges f) ->
  (forall i, (i < Z.to_nat (len (event_ids f) / (W + 1)))%nat ->
     0 <= nth (i * Z.to_nat (W + 1) + Z.to_nat W) (event_ids f) 0
       < get_one_hot_size (event_ranges f)) ->
  MusicRnn._get_sequences_from_file fs filepath W
  = (windows_spec (event_ids f) (get_one_hot_size (event_ranges f)) W, None).
Proof.
  intros Hfile HW Hwf Hlabels.
  unfold MusicRnn._get_sequences_from_file, event_ids_from_file.
  rewrite Hfile. unfold floordiv.
  destruct (W + 1 =? 0) eqn:E; [apply Z.eqb_eq in E; lia|].
  unfold range, windows_spec. apply yield_each_all_ok.
  intros i Hi. apply sequence_at_label; auto.
  - apply chunk_fits; [lia | unfold len; lia | lia].
  - apply Hlabels. lia.
Qed.

Lemma only_labels_are_decoded_witness :
  example_fs_two !! "b.bin" = Some example_file_unchecked /\
  MusicRnn._get_sequences_from_file example_fs_two "b.bin" 2
  = ([ ([[5000]; [-7]], one_hot 1288 300) ], None).
Proof.
  split; [reflexivity|].
  assert (H : MusicRnn._get_sequences_from_file example_fs_two "b.bin" 2
              = (windows_spec (event_ids example_file_unchecked)
                   (get_one_hot_size (event_ranges example_file_unchecked)) 2,
                 None)).
  { apply (only_labels_are_decoded example_fs_two "b.bin"
             example_file_unchecked 2).
    - reflexivity.
    - lia.
    - exact example_ranges_wf.
    - intros i Hi. change (i < 1)%nat in Hi.
      replace i with 0%nat by lia. vm_compute. split; [discriminate | reflexivity]. }
  rewrite H. vm_compute. reflexivity.
Defined.

(** ** The two loading modes *)

(** X7: Loading into memory and generating lazily see the same data: if the
    in-memory load returns, the generator yields exactly the concatenation
    of the loaded per-file lists and ends normally; if the load raises, the
    generator ends with the same exception. *)
Theorem in_memory_and_generator_agree (fs : gmap string EncodedFile)
    (filepaths : list string) (W : Z) :
  match MusicRnn.load_each fs filepaths W with
  | Ok data =>
      MusicRnn._generator fs filepaths W = (concat data, None) /\
      length data = length filepaths
  | Raise e => snd (MusicRnn._generator fs filepaths W) = Some e
  end.
Proof.
  induction filepaths as [|p rest IH]; [split; reflexivity|].
  cbn [MusicRnn.load_each MusicRnn._generator]. unfold list_of_gen.
  destruct (snd (MusicRnn._get_sequences_from_file fs p W)) eqn:Ep;
    cbn [Py.bind snd]; [reflexivity|].
  destruct (MusicRnn.load_each fs rest W) as [others|e]; cbn [Py.bind].
  - destruct IH as [IH Hlen]. rewrite IH. cbn [fst snd concat length].
    split; [reflexivity | now rewrite Hlen].
  - exact IH.
Qed.

(** ** Creating the dataset *)

(** X8: Creation fails on an empty list of files ([filepaths[0]]) and on a
    first file that cannot be read, in both modes, before any window is
    extracted. *)
Theorem dataset_creation_needs_first_file (fs : gmap string EncodedFile)
    (batch_size W : Z) (use_generator show : bool) (prefetch_buffer_size : Z) :
  MusicRnn.create_music_rnn_dataset fs [] batch_size W use_generator show
    prefetch_buffer_size = Raise IndexError /\
  forall p rest, fs !! p = None ->
    MusicRnn.create_music_rnn_dataset fs (p :: rest) batch_size W
      use_generator show prefetch_buffer_size
    = Raise (FileNotFoundError p).
Proof.
  split; [reflexivity|]. intros p rest Hp.
  unfold MusicRnn.create_music_rnn_dataset,
    MusicRnn.create_music_rnn_dataset_locals.
  assert (Hi : index (p :: rest) 0 = Ok p) by reflexivity.
  rewrite Hi. cbn [Py.bind]. unfold from_file_one_hot_size. rewrite Hp.
  reflexivity.
Qed.

Lemma dataset_creation_needs_first_file_witness :
  example_fs !! "missing.bin" = None /\
  MusicRnn.create_music_rnn_dataset example_fs ["missing.bin"; "a.bin"] 32 2
    true true 2 = Raise (FileNotFoundError "missing.bin").
Proof.
  split; [reflexivity|].
  exact (proj2 (dataset_creation_needs_first_file example_fs 32 2 true true 2)
           "missing.bin" ["a.bin"] eq_refl).
Defined.

Lemma from_generator_inv (g : Gen MusicRnn.Sample) (shapes : (Z * Z) * Z)
    (d : MusicRnn.Dataset) :
  MusicRnn.from_generator g shapes = Ok d ->
  d = MusicRnn.mkDataset g shapes None.
Proof.
  unfold MusicRnn.from_generator.
  repeat match goal with |- context [if ?c then _ else _] => destruct c end;
    congruence.
Qed.

Lemma prefetch_inv (d d' : MusicRnn.Dataset) (buffer_size : Z) :
  MusicRnn.prefetch d buffer_size = Ok d' ->
  d' = MusicRnn.mkDataset (MusicRnn.elements d) (MusicRnn.output_shapes d)
         (Some buffer_size).
Proof.
  unfold MusicRnn.prefetch.
  repeat match goal with |- context [if ?c then _ else _] => destruct c end;
    congruence.
Qed.



Lemma generator_mode_locals_inv (fs : gmap string EncodedFile)
    (p : string) (rest : list string) (f : EncodedFile) (batch_size W : Z)
    (show : bool) (prefetch_buffer_size : Z) (d : MusicRnn.Dataset) :
  fs !! p = Some f ->
  MusicRnn.create_music_rnn_dataset_locals fs (p :: rest) batch_size W true
    show prefetch_buffer_size = Ok (Some d, None) ->
  d = MusicRnn.mkDataset (MusicRnn._generator fs (p :: rest) W)
        ((W, 1), get_one_hot_size (event_ranges f))
        (Some prefetch_buffer_size).
Proof.
  intros Hp H. unfold MusicRnn.create_music_rnn_dataset_locals in H.
  assert (Hi : index (p :: rest) 0 = Ok p) by reflexivity.
  rewrite Hi in H. cbn [Py.bind] in H.
  unfold from_file_one_hot_size in H. rewrite Hp in H. cbn [Py.bind] in H.
  apply bind_Ok_inv in H as [locals [Hl H]].
  apply bind_Ok_inv in Hl as [d0 [Hd0 Hl]].
  apply from_generator_inv in Hd0. injection Hl as <-. cbn [fst snd] in H.
  apply bind_Ok_inv in H as [d1 [Hd1 H]].
  apply prefetch_inv in Hd1. injection H as <-. now subst.
Qed.



Lemma one_hot_len (n : Z) (y : list Z) : is_one_hot n y -> len y = n.
Proof.
  intros [i [Hi ->]]. unfold len. rewrite one_hot_length. lia.
Qed.

(** X10: When all files share the one-hot size of the first one, every tuple
    the generator-mode dataset yields has the shapes the dataset declares:
    [x] has [W] rows of one entry and [y] has the declared width. *)
Theorem dataset_elements_match_declared_shapes (fs : gmap string EncodedFile)
    (filepaths : list string) (batch_size W : Z) (show : bool)
    (prefetch_buffer_size : Z) (d : MusicRnn.Dataset)
    (x : list (list Z)) (y : list Z) :
  MusicRnn.create_music_rnn_dataset_locals fs filepaths batch_size W true show
    prefetch_buffer_size = Ok (Some d, None) ->
  (forall q g, In q filepaths -> fs !! q = Some g ->
     get_one_hot_size (event_ranges g) = snd (MusicRnn.output_shapes d)) ->
  In (x, y) (fst (MusicRnn.elements d)) ->
  MusicRnn.output_shapes d = ((len x, 1), len y) /\
  Forall (fun row => len row = 1) x.
Proof.
  intros Hd Hsame Hin.
  destruct filepaths as [|p rest]; [discriminate|].
  destruct (fs !! p) as [f|] eqn:Hp.
  2:{ unfold MusicRnn.create_music_rnn_dataset_locals in Hd.
      assert (Hi : index (p :: rest) 0 = Ok p) by reflexivity.
      rewrite Hi in Hd. cbn [Py.bind] in Hd.
      unfold from_file_one_hot_size in Hd. rewrite Hp in Hd. discriminate. }
  apply (generator_mode_locals_inv fs p rest f batch_size W show
           prefetch_buffer_size d Hp) in Hd. subst d.
  cbn [MusicRnn.elements MusicRnn.output_shapes snd] in *.
  apply (generator_In fs (p :: rest) W (x, y)) in Hin as [q [Hq Hin]].
  apply get_sequences_from_file_shape in Hin as [g [Hg [Hx [Hrows Hy]]]].
  apply one_hot_len in Hy. rewrite (Hsame q g Hq Hg) in Hy.
  split; [now rewrite Hx, Hy|].
  apply List.Forall_forall. intros row Hrow.
  rewrite List.Forall_forall in Hrows.
  destruct (Hrows row Hrow) as [id [-> _]]. reflexivity.
Qed.

Lemma dataset_elements_match_declared_shapes_witness :
  In ([[3]; [130]], one_hot 1288 300)
    (fst (MusicRnn._generator example_fs ["a.bin"] 2)) /\
  ((2, 1), 1288) = ((len [[3]; [130]], 1), len (one_hot 1288 300)).
Proof.
  assert (Hin : In ([[3]; [130]], one_hot 1288 300)
                  (fst (MusicRnn._generator example_fs ["a.bin"] 2))).
  { vm_compute. left. reflexivity. }
  split; [exact Hin|].
  refine (proj1 (dataset_elements_match_declared_shapes example_fs ["a.bin"]
                   32 2 true 2
                   (MusicRnn.mkDataset
                      (MusicRnn._generator example_fs ["a.bin"] 2)
                      ((2, 1), 1288) (Some 2))
                   [[3]; [130]] (one_hot 1288 300) _ _ Hin)).
  - vm_compute. reflexivity.
  - intros q g [<-|[]] Hg. vm_compute in Hg. injection Hg as <-.
    vm_compute. reflexivity.
Defined.

(** ** The constructor of [MusicRNN] *)

(** X11: Built from a layer count [n >= 0] and scalar size and dropout
    settings that Keras accepts for its layers, the model has exactly [n]
    LSTM layers and [n] dropout layers, every LSTM layer has the given
    size and input shape, all but the last return sequences, and there
    are [n] batch-normalisation layers, or none when
    [use_batch_normalization] is falsy. *)
Theorem init_builds_a_uniform_stack (keras : MusicRnn.Keras)
    (input_event_dimensions output_event_dimensions window_size size p
    dense_layer_size use_batch_normalization : PyVal) (n : Z) :
  0 <= n -> isscalar size = true -> isscalar p = true ->
  accepted keras
    (uniform_stack_layers size p window_size input_event_dimensions
       dense_layer_size output_event_dimensions
       (truthy use_batch_normalization)) ->
  exists m,
    MusicRnn.MusicRNN_init_body keras input_event_dimensions
      output_event_dimensions window_size (VInt n) size p dense_layer_size
      use_batch_normalization
    = Ok m /\
    len (MusicRnn.lstm_layers m) = n /\
    len (MusicRnn.dropout_layers m) = n /\
    (forall i l, MusicRnn.lstm_layers m !! i = Some l ->
       MusicRnn.lstm_units l = size /\
       MusicRnn.input_shape l = (window_size, input_event_dimensions) /\
       MusicRnn.return_sequences l = (Z.of_nat i <? n - 1)) /\
    Forall (fun d => MusicRnn.rate d = p) (MusicRnn.dropout_layers m) /\
    MusicRnn.normalization_layers m
    = (if truthy use_batch_normalization then Some (Z.to_nat n) else None).
Proof.
  intros Hn Hs Hp Hacc. eexists. split.
  { now apply MusicRNN_init_body_uniform. }
  unfold uniform_model.
  cbn [MusicRnn.lstm_layers MusicRnn.dropout_layers
       MusicRnn.normalization_layers].
  unfold uniform_lstm_layers, range, len.
  rewrite !length_map, length_seq, repeat_length.
  repeat split; try lia.
  - rewrite !list_lookup_fmap in H.
    destruct (seq 0 (Z.to_nat n) !! i) as [j|] eqn:Ej; [|discriminate].
    cbn in H. injection H as <-. reflexivity.
  - rewrite !list_lookup_fmap in H.
    destruct (seq 0 (Z.to_nat n) !! i) as [j|] eqn:Ej; [|discriminate].
    cbn in H. injection H as <-. reflexivity.
  - rewrite !list_lookup_fmap in H.
    destruct (seq 0 (Z.to_nat n) !! i) as [j|] eqn:Ej; [|discriminate].
    apply lookup_seq in Ej as [-> _].
    cbn in H. injection H as <-. reflexivity.
  - apply List.Forall_forall. intros d Hd. apply repeat_spec in Hd.
    now subst d.
Qed.

Lemma init_builds_a_uniform_stack_witness :
  accepted example_keras
    (uniform_stack_layers (VInt 512) (VFloat (1 # 2)) (VInt 64) (VInt 1)
       (VInt 256) (VInt 1288) true) /\
  exists m,
    MusicRnn.MusicRNN_init_body example_keras (VInt 1) (VInt 1288) (VInt 64)
      (VInt 3) (VInt 512) (VFloat (1 # 2)) (VInt 256) (VBool true) = Ok m /\
    len (MusicRnn.lstm_layers m) = 3.
Proof.
  assert (Hacc : accepted example_keras
                   (uniform_stack_layers (VInt 512) (VFloat (1 # 2)) (VInt 64)
                      (VInt 1) (VInt 256) (VInt 1288) true)).
  { repeat constructor. }
  split; [exact Hacc|].
  destruct (init_builds_a_uniform_stack example_keras (VInt 1) (VInt 1288)
              (VInt 64) (VInt 512) (VFloat (1 # 2)) (VInt 256) (VBool true) 3
              ltac:(lia) eq_refl eq_refl Hacc) as [m [Hm [Hl _]]].
  exists m. split; [exact Hm | exact Hl].
Defined.



(** ** The forward pass *)

Lemma index_map_range {A : Type} (f : Z -> A) (n : Z) (i : nat) :
  (i < Z.to_nat n)%nat -> index (map f (range n)) (Z.of_nat i) = Ok (f (Z.of_nat i)).
Proof.
  intros Hi. unfold index.
  destruct (Z.of_nat i <? 0) eqn:E; [apply Z.ltb_lt in E; lia|]. rewrite E.
  rewrite Nat2Z.id. unfold range.
  rewrite !list_lookup_fmap, lookup_seq_lt by lia. reflexivity.
Qed.

Section ForwardPass.

Variable Tensor : Type.
Variable lstm : MusicRnn.LSTM -> Tensor -> Tensor.
Variable dropout : MusicRnn.Dropout -> Tensor -> Tensor.
Variable normalization : Z -> Tensor -> Tensor.
Variable dense : MusicRnn.Dense -> Tensor -> Tensor.

Lemma call_loop_uniform (input_event_dimensions output_event_dimensions
    window_size size p dense_layer_size : PyVal) (bn : bool) (n : Z)
    (k a : nat) (inputs : Tensor) :
  (a + k <= Z.to_nat n)%nat ->
  Forward.call_loop Tensor lstm dropout normalization
    (MusicRnn.mkMusicRNN (VInt n)
       (uniform_lstm_layers size window_size input_event_dimensions n)
       (repeat (MusicRnn.mkDropout p) (Z.to_nat n))
       (if bn then Some (Z.to_nat n) else None)
       (MusicRnn.mkDense dense_layer_size "relu")
       (MusicRnn.mkDense output_event_dimensions "softmax"))
    (map Z.of_nat (seq a k)) inputs
  = Ok (fold_left
          (Forward.uniform_step Tensor lstm dropout normalization size p
             window_size input_event_dimensions n bn)
          (map Z.of_nat (seq a k)) inputs).
Proof.
  revert a inputs. induction k as [|k IH]; intros a inputs H; [reflexivity|].
  cbn [seq map fold_left Forward.call_loop MusicRnn.lstm_layers
       MusicRnn.dropout_layers MusicRnn.normalization_layers].
  unfold uniform_lstm_layers at 1. rewrite index_map_range by lia.
  cbn [Py.bind]. rewrite index_repeat by lia. cbn [Py.bind].
  unfold Forward.uniform_step at 2. destruct bn.
  - rewrite index_repeat by lia. cbn [Py.bind]. apply IH. lia.
  - cbn [Py.bind]. apply IH. lia.
Qed.

(** X13: On a model built from a layer count and scalar settings the forward
    pass never indexes past a layer list: it returns, having applied for
    each [i] in order LSTM layer [i], its dropout layer and, when batch
    normalisation is on, normalisation layer [i], then the hidden dense
    layer and the output layer. *)
Theorem forward_pass_of_constructed_model (keras : MusicRnn.Keras)
    (input_event_dimensions output_event_dimensions window_size size p
    dense_layer_size use_batch_normalization : PyVal) (n : Z)
    (m : MusicRnn.MusicRNN) (inputs : Tensor) :
  0 <= n -> isscalar size = true -> isscalar p = true ->
  MusicRnn.MusicRNN_init_body keras input_event_dimensions
    output_event_dimensions window_size (VInt n) size p dense_layer_size
    use_batch_normalization
  = Ok m ->
  Forward.call Tensor lstm dropout normalization dense m inputs
  = Ok (dense (MusicRnn.mkDense output_event_dimensions "softmax")
          (dense (MusicRnn.mkDense dense_layer_size "relu")
             (fold_left
                (Forward.uniform_step Tensor lstm dropout normalization size p
                   window_size input_event_dimensions n
                   (truthy use_batch_normalization))
                (range n) inputs))).
Proof.
  intros Hn Hs Hp Hm.
  apply MusicRNN_init_body_Ok_uniform in Hm; try assumption.
  subst m. unfold uniform_model, Forward.call.
  cbn [MusicRnn.lstm_layers_count as_index Py.bind].
  unfold range at 1. rewrite call_loop_uniform by lia. reflexivity.
Qed.

End ForwardPass.

Lemma forward_pass_of_constructed_model_witness :
  exists m,
    MusicRnn.MusicRNN_init_body example_keras (VInt 1) (VInt 9) (VInt 4)
      (VInt 2) (VInt 8) (VFloat (1 # 2)) (VInt 256) (VBool false) = Ok m /\
    Forward.call (list string) (fun _ t => t ++ ["lstm"])
      (fun _ t => t ++ ["dropout"]) (fun _ t => t ++ ["norm"])
      (fun _ t => t ++ ["dense"]) m []
    = Ok ["lstm"; "dropout"; "lstm"; "dropout"; "dense"; "dense"].
Proof.
  destruct (MusicRnn.MusicRNN_init_body example_keras (VInt 1) (VInt 9)
              (VInt 4) (VInt 2) (VInt 8) (VFloat (1 # 2)) (VInt 256)
              (VBool false))
    as [m|e] eqn:Hm; [|vm_compute in Hm; discriminate].
  exists m. split; [reflexivity|].
  rewrite (forward_pass_of_constructed_model (list string)
             (fun _ t => t ++ ["lstm"]) (fun _ t => t ++ ["dropout"])
             (fun _ t => t ++ ["norm"]) (fun _ t => t ++ ["dense"])
             example_keras (VInt 1) (VInt 9) (VInt 4) (VInt 8) (VFloat (1 # 2)) (VInt 256)
             (VBool false) 2 m [] ltac:(lia) eq_refl eq_refl Hm).
  vm_compute. reflexivity.
Defined.

(** ** Loading a dataset from the command line *)

(** X14: Before any file is loaded, [get_dataset] rejects a mode other
    than [train] and [test] with [InvalidParameterError]; and for a
    dataset directory without the mode's folder it raises
    [AttributeError] rather than the intended [DatasetError], because the
    message of that error is built with [str.fromat]. *)
Theorem get_dataset_errors (w : Cli.World) (self : Cli.ModelType)
    (dataset_path mode : string) (config : Config.ConfigInstance)
    (use_generator : bool) (max_files : option Z) (show : bool) :
  (mode <> "train" -> mode <> "test" ->
   Cli.get_dataset w self dataset_path mode config use_generator max_files show
   = Raise (InvalidParameterError mode)) /\
  (mode = "train" \/ mode = "test" ->
   Cli.listings w !! Cli.joinpath w dataset_path mode = None ->
   Cli.get_dataset w self dataset_path mode config use_generator max_files show
   = Raise (AttributeError "fromat")).
Proof.
  unfold Cli.get_dataset, Cli.mem. cbn [existsb]. rewrite orb_false_r. split.
  - intros Htrain Htest.
    destruct (String.eqb_spec mode "train"); [contradiction|].
    destruct (String.eqb_spec mode "test"); [contradiction|]. reflexivity.
  - intros Hmode Hnone.
    assert (E : String.eqb mode "train" || String.eqb mode "test" = true).
    { destruct Hmode as [-> | ->]; reflexivity. }
    rewrite E. cbn [negb]. now rewrite Hnone.
Qed.

Lemma get_dataset_errors_witness :
  Cli.listings example_world !! Cli.joinpath example_world "nowhere" "test"
  = None /\
  Cli.get_dataset example_world Cli.MUSIC_RNN "nowhere" "test" example_config
    false None true
  = Raise (AttributeError "fromat").
Proof.
  split; [reflexivity|].
  exact (proj2 (get_dataset_errors example_world Cli.MUSIC_RNN "nowhere" "test"
                  example_config false None true)
           (or_intror eq_refl) eq_refl).
Defined.

(** ** Verbosity *)

(** X15: [_set_verbosity_level] looks the name up in upper case: a name
    for which [logging] has no attribute is rejected with [BadParameter]
    and changes nothing; and where upper-casing a second time changes
    nothing more, a name and its upper-case form are accepted or rejected
    alike and leave the same state. *)
Theorem verbosity_is_case_insensitive (value : string) (w : Cli.World) :
  (Cli.logging_getattr (Cli.runtime w) (Cli.str_upper (Cli.runtime w) value)
   = None ->
   Cli._set_verbosity_level value w = (w, Raise (BadParameter value))) /\
  (Cli.str_upper (Cli.runtime w) (Cli.str_upper (Cli.runtime w) value)
   = Cli.str_upper (Cli.runtime w) value ->
   fst (Cli._set_verbosity_level (Cli.str_upper (Cli.runtime w) value) w)
   = fst (Cli._set_verbosity_level value w) /\
   is_ok (snd (Cli._set_verbosity_level (Cli.str_upper (Cli.runtime w) value) w))
   = is_ok (snd (Cli._set_verbosity_level value w))).
Proof.
  unfold Cli._set_verbosity_level. split.
  - now intros ->.
  - intros ->.
    destruct (Cli.logging_getattr _ _) as [x|]; split; reflexivity.
Qed.

Lemma verbosity_is_case_insensitive_witness :
  Cli._set_verbosity_level "loud" example_world
  = (example_world, Raise (BadParameter "loud")) /\
  fst (Cli._set_verbosity_level "DEBUG" example_world)
  = fst (Cli._set_verbosity_level "debug" example_world) /\
  snd (Cli._set_verbosity_level "debug" example_world) = Ok tt.
Proof.
  split; [|split].
  - exact (proj1 (verbosity_is_case_insensitive "loud" example_world) eq_refl).
  - exact (proj1 (proj2 (verbosity_is_case_insensitive "debug" example_world)
                    eq_refl)).
  - reflexivity.
Defined.

(** ** The seed derived from the clock *)

Lemma land_shiftl_mask (a b n : Z) :
  0 <= n -> Z.land a (Z.shiftl b n) = Z.shiftl (Z.land (Z.shiftr a n) b) n.
Proof.
  intros Hn. apply Z.bits_inj'. intros k Hk.
  rewrite Z.land_spec. destruct (Z_lt_dec k n) as [Hlt|Hge].
  - rewrite !Z.shiftl_spec_low by lia. apply andb_false_r.
  - rewrite !Z.shiftl_spec by lia. rewrite Z.land_spec, Z.shiftr_spec by lia.
    do 2 f_equal. lia.
Qed.

Lemma masked_byte (t k : Z) :
  0 <= k -> Z.land t (Z.shiftl 255 k) = ((t / 2 ^ k) mod 256) * 2 ^ k.
Proof.
  intros Hk. rewrite land_shiftl_mask by lia.
  change 255 with (Z.ones 8). rewrite Z.land_ones by lia.
  rewrite Z.shiftl_mul_pow2, Z.shiftr_div_pow2 by lia. reflexivity.
Qed.

(** X16: Without [--seed], the seed is the four low bytes of the millisecond
    clock in reverse order, hence a number in [[0, 2^32)]; a seed given on
    the command line is taken as it is. *)
Theorem cli_seed_reverses_clock_bytes (w : Cli.World) :
  Cli.cli_seed w None
  = (Cli.time_ms w mod 256) * 2 ^ 24
    + ((Cli.time_ms w / 2 ^ 8) mod 256) * 2 ^ 16
    + ((Cli.time_ms w / 2 ^ 16) mod 256) * 2 ^ 8
    + (Cli.time_ms w / 2 ^ 24) mod 256 /\
  0 <= Cli.cli_seed w None < 2 ^ 32 /\
  forall s, Cli.cli_seed w (Some s) = s.
Proof.
  assert (H : Cli.cli_seed w None
              = (Cli.time_ms w mod 256) * 2 ^ 24
                + ((Cli.time_ms w / 2 ^ 8) mod 256) * 2 ^ 16
                + ((Cli.time_ms w / 2 ^ 16) mod 256) * 2 ^ 8
                + (Cli.time_ms w / 2 ^ 24) mod 256).
  { unfold Cli.cli_seed. set (t := Cli.time_ms w).
    change 0xff000000 with (Z.shiftl 255 24).
    change 0x00ff0000 with (Z.shiftl 255 16).
    change 0x0000ff00 with (Z.shiftl 255 8).
    change 0x000000ff with (Z.shiftl 255 0).
    rewrite !masked_byte by lia.
    rewrite !Z.shiftr_div_pow2, !Z.shiftl_mul_pow2 by lia.
    rewrite Z.div_mul by lia.
    replace ((t / 2 ^ 16) mod 256 * 2 ^ 16 / 2 ^ 8)
      with ((t / 2 ^ 16) mod 256 * 2 ^ 8).
    2:{ replace ((t / 2 ^ 16) mod 256 * 2 ^ 16)
          with (((t / 2 ^ 16) mod 256 * 2 ^ 8) * 2 ^ 8) by (change (2 ^ 16) with (2 ^ 8 * 2 ^ 8); ring).
        now rewrite Z.div_mul by lia. }
    change (2 ^ 0) with 1. rewrite Z.div_1_r, !Z.mul_1_r.
    replace ((t / 2 ^ 8) mod 256 * 2 ^ 8 * 2 ^ 8)
      with ((t / 2 ^ 8) mod 256 * 2 ^ 16)
      by (change (2 ^ 16) with (2 ^ 8 * 2 ^ 8); ring).
    ring. }
  split; [exact H|]. split; [|reflexivity].
  rewrite H.
  pose proof (Z.mod_pos_bound (Cli.time_ms w) 256 ltac:(lia)).
  pose proof (Z.mod_pos_bound (Cli.time_ms w / 2 ^ 8) 256 ltac:(lia)).
  pose proof (Z.mod_pos_bound (Cli.time_ms w / 2 ^ 16) 256 ltac:(lia)).
  pose proof (Z.mod_pos_bound (Cli.time_ms w / 2 ^ 24) 256 ltac:(lia)).
  change (2 ^ 32) with 4294967296. change (2 ^ 24) with 16777216.
  change (2 ^ 16) with 65536. change (2 ^ 8) with 256 in *.
  change (2 ^ 16) with 65536 in *. change (2 ^ 24) with 16777216 in *.
  lia.
Qed.

(** ** Failure and the metadata switch in [preprocess] *)

Section PreprocessProperties.

Variable config_get : string -> Cli.M Config.ConfigInstance.
Variable split_dataset :
  Config.ConfigInstance -> string -> string -> Q -> bool -> Q -> Z -> Cli.M unit.
Variable convert_all :
  Config.ConfigInstance -> string -> string -> Z -> Cli.M unit.

(** X17: An exception raised while the configuration is loaded or by the
    conversion call ends [preprocess] with that exception: the conversion
    is not started in the first case, and in both no manifest is written
    and no configuration is copied, so the world is as the failing call
    left it. *)
Theorem preprocess_propagates_failures
    (dataset_path output_directory : string) (num_workers : Z) (p : string)
    (transform : bool) (transform_percent : Q) (split : bool) (test_percent : Q)
    (output_metadata : bool) (w w0 : Cli.World) (e : PyError) :
  p <> "" ->
  (config_get p w = (w0, Raise e) ->
   Cli.preprocess config_get split_dataset convert_all dataset_path
     output_directory num_workers (Some p) transform transform_percent split
     test_percent output_metadata w = (w0, Raise e)) /\
  (forall config w1,
     config_get p w = (w0, Ok config) ->
     (if split
      then split_dataset config dataset_path output_directory test_percent
             transform transform_percent num_workers
      else convert_all config dataset_path output_directory num_workers) w0
     = (w1, Raise e) ->
     Cli.preprocess config_get split_dataset convert_all dataset_path
       output_directory num_workers (Some p) transform transform_percent split
       test_percent output_metadata w = (w1, Raise e)).
Proof.
  intros Hp. split.
  - intros Hcfg. rewrite preprocess_with_config by exact Hp.
    unfold Cli.mbind. now rewrite Hcfg.
  - intros config w1 Hcfg Hconv. rewrite preprocess_with_config by exact Hp.
    unfold Cli.mbind at 1. rewrite Hcfg.
    unfold Cli.preprocess_steps, Cli.mbind at 1. now rewrite Hconv.
Qed.

(** X18: With [--no-metadata] the command is the conversion call and nothing
    more: its outcome and the world it leaves are those of the conversion. *)
Theorem preprocess_without_metadata
    (dataset_path output_directory : string) (num_workers : Z) (p : string)
    (transform : bool) (transform_percent : Q) (split : bool) (test_percent : Q)
    (w w0 : Cli.World) (config : Config.ConfigInstance) :
  p <> "" ->
  config_get p w = (w0, Ok config) ->
  Cli.preprocess config_get split_dataset convert_all dataset_path
    output_directory num_workers (Some p) transform transform_percent split
    test_percent false w
  = (if split
     then split_dataset config dataset_path output_directory test_percent
            transform transform_percent num_workers
     else convert_all config dataset_path output_directory num_workers) w0.
Proof.
  intros Hp Hcfg. rewrite preprocess_with_config by exact Hp.
  unfold Cli.mbind at 1. rewrite Hcfg.
  unfold Cli.preprocess_steps, Cli.mbind, Cli.ret. cbn [negb].
  destruct ((if split
             then split_dataset config dataset_path output_directory
                    test_percent transform transform_percent num_workers
             else convert_all config dataset_path output_directory
                    num_workers) w0) as [w1 [[]|e]]; reflexivity.
Qed.

(** X19: The manifest is written before the configuration file is copied:
    when the manifest can be opened for writing and the configuration's
    file does not exist at that point, the command ends in
    [FileNotFoundError] with [metadata.json] already in the output
    directory and nothing else done after the conversion. *)
Theorem preprocess_manifest_survives_failed_copy
    (dataset_path output_directory : string) (num_workers : Z) (p : string)
    (transform : bool) (transform_percent : Q) (split : bool) (test_percent : Q)
    (w w0 w1 : Cli.World) (config : Config.ConfigInstance) :
  p <> "" ->
  config_get p w = (w0, Ok config) ->
  (if split
   then split_dataset config dataset_path output_directory test_percent
          transform transform_percent num_workers
   else convert_all config dataset_path output_directory num_workers) w0
  = (w1, Ok tt) ->
  Cli.open_error (Cli.runtime w1)
    (Cli.joinpath w1 output_directory "metadata.json") = None ->
  <[Cli.joinpath w1 output_directory "metadata.json" :=
      Cli.Json (Cli.metadata w1 dataset_path output_directory transform
                  transform_percent split test_percent)]> (Cli.files w1)
    !! Config.filepath config = None ->
  exists w2,
    Cli.preprocess config_get split_dataset convert_all dataset_path
      output_directory num_workers (Some p) transform transform_percent split
      test_percent true w
    = (w2, Raise (FileNotFoundError (Config.filepath config))) /\
    manifest_of w2 output_directory
    = Some (Cli.metadata w1 dataset_path output_directory transform
              transform_percent split test_percent) /\
    Cli.trace w2
    = Cli.trace w1
      ++ [Cli.WroteFile (Cli.joinpath w1 output_directory "metadata.json")].
Proof.
  intros Hp Hcfg Hconv Hopen Hsrc. rewrite preprocess_with_config by exact Hp.
  unfold Cli.mbind at 1. rewrite Hcfg.
  unfold Cli.preprocess_steps, Cli.mbind at 1. rewrite Hconv.
  cbn [negb]. unfold Cli.mbind, Cli.dump_json. rewrite Hopen.
  unfold Cli.copy2, Cli.joinpath in *.
  cbn [Cli.files Cli.runtime Cli.set_files Cli.log_action] in *.
  rewrite Hsrc.
  eexists. split; [reflexivity|].
  unfold manifest_of, Cli.joinpath.
  cbn [Cli.files Cli.runtime Cli.trace Cli.set_files Cli.log_action].
  rewrite lookup_insert_eq. split; reflexivity.
Qed.

End PreprocessProperties.

Lemma preprocess_propagates_failures_witness :
  "cfg.yml" <> "" /\
  Cli.preprocess example_config_get example_failing_split_dataset
    example_failing_convert_all "raw" "out" 16 (Some "cfg.yml") false (1 # 2)
    true (3 # 10) true example_world
  = (example_world, Raise (ExternalError "split_dataset")).
Proof.
  split; [discriminate|].
  exact (proj2 (preprocess_propagates_failures example_config_get
                  example_failing_split_dataset example_failing_convert_all
                  "raw" "out" 16 "cfg.yml" false (1 # 2) true (3 # 10) true
                  example_world example_world (ExternalError "split_dataset")
                  ltac:(discriminate))
           example_config example_world eq_refl eq_refl).
Defined.

Lemma preprocess_without_metadata_witness :
  "cfg.yml" <> "" /\
  Cli.preprocess example_config_get (example_split_dataset ["out/train/a.bin"])
    (example_convert_all ["out/train/a.bin"]) "raw" "out" 16 (Some "cfg.yml")
    false (1 # 2) true (3 # 10) false example_world
  = example_convert ["out/train/a.bin"] example_world.
Proof.
  split; [discriminate|].
  exact (preprocess_without_metadata example_config_get
           (example_split_dataset ["out/train/a.bin"])
           (example_convert_all ["out/train/a.bin"]) "raw" "out" 16 "cfg.yml"
           false (1 # 2) true (3 # 10) example_world example_world
           example_config ltac:(discriminate) eq_refl).
Defined.

Lemma preprocess_manifest_survives_failed_copy_witness :
  exists w2,
    Cli.preprocess example_config_get_moved (example_split_dataset [])
      (example_convert_all []) "raw" "out" 16 (Some "cfg.yml") false (1 # 2)
      true (3 # 10) true example_world
    = (w2, Raise (FileNotFoundError "moved.yml")) /\
    manifest_of w2 "out" = Some example_manifest.
Proof.
  destruct (preprocess_manifest_survives_failed_copy example_config_get_moved
              (example_split_dataset []) (example_convert_all []) "raw" "out"
              16 "cfg.yml" false (1 # 2) true (3 # 10) example_world
              example_world example_world example_config_moved)
    as [w2 [Hrun [Hmanifest _]]].
  - discriminate.
  - reflexivity.
  - reflexivity.
  - reflexivity.
  - vm_compute. reflexivity.
  - exists w2. split; [exact Hrun | exact Hmanifest].
Defined.

(** ** Collisions of [_encode_event_as_int] *)

(** X20: Within one kind two events get the same id exactly when their values
    agree once a missing value is read as 0, so an event without a value
    and the event of value 0 collide; across kinds, ids that lie inside
    their kinds' ranges never collide when the ranges are laid out
    contiguously. *)
Theorem encoded_ids_collide_only_on_equal_values (e1 e2 : Event)
    (ranges : EventRanges) :
  (type e1 = type e2 ->
   (MusicRnn._encode_event_as_int e1 ranges
    = MusicRnn._encode_event_as_int e2 ranges
    <-> default 0 (value e1) = default 0 (value e2))) /\
  (forall id,
     ranges_wf ranges ->
     MusicRnn._encode_event_as_int e1 ranges = Ok id ->
     MusicRnn._encode_event_as_int e2 ranges = Ok id ->
     in_range id (ranges (type e1)) = true ->
     in_range id (ranges (type e2)) = true ->
     type e1 = type e2).
Proof.
  unfold MusicRnn._encode_event_as_int. rewrite !or_int_default. split.
  - intros ->. split; intros H.
    + injection H as H. lia.
    + now rewrite H.
  - intros id Hwf _ _ H1 H2.
    pose proof (find_kind_in_range ranges (type e1) id Hwf H1) as F1.
    pose proof (find_kind_in_range ranges (type e2) id Hwf H2) as F2.
    congruence.
Qed.

Lemma encoded_ids_collide_only_on_equal_values_witness :
  MusicRnn._encode_event_as_int (mkEvent NOTE_OFF None) example_ranges
  = MusicRnn._encode_event_as_int (mkEvent NOTE_OFF (Some 0)) example_ranges.
Proof.
  apply (proj1 (encoded_ids_collide_only_on_equal_values
                  (mkEvent NOTE_OFF None) (mkEvent NOTE_OFF (Some 0))
                  example_ranges) eq_refl).
  reflexivity.
Defined.
